(** * analyze_benchmarks.py: a shallow embedding and its specification

    The script loads benchmark records from a results directory, prints a
    textual report, writes a CSV file and optionally renders charts.  The
    embedding follows the source function by function:

    - records are a [Record] with one field per dictionary key the script
      reads; integers are [Z];
    - Python's true division [/] yields a float; floats are idealised as
      exact rationals ([Q]), so rounding of binary64 is abstracted away, but
      the [ZeroDivisionError] of a zero divisor is kept;
    - [math.log] is a library function: it is a section variable, and only
      its domain error on non-positive arguments is modelled;
    - input files hold what the script expects of them: the summary file a
      JSON array of records, a per-run file one record; a file that does
      not parse is [Malformed];
    - console output is the list of strings passed to [print], in order;
    - exceptions propagate through a small state-and-error monad [Py].

    The embedding covers the runs in which every record holds all nine
    keys with integer values small enough to convert to a float, the
    output files can be opened, and the plotting calls succeed once
    matplotlib has been imported.  Outside these runs the script can also
    raise [KeyError], [OverflowError] or an I/O error, which [exn] does
    not list; and where a quotient is not representable in binary64 the
    printed digits and comparisons against 1 can differ from the exact
    ones computed here.  Statements below that say which exception stops
    a run, or what a completed run leaves, are to be read within this
    scope. *)

From Stdlib Require Import ZArith QArith Qabs String Ascii List DecimalString Lia.
From Stdlib Require Import Sorting.Sorted Sorting.Permutation.
From stdpp Require Import gmap strings list fin_maps sorting.

Local Open Scope string_scope.
Local Open Scope Z_scope.
Local Open Scope list_scope.

(** ** Data model *)

(** One benchmark measurement: the keys read by the script. *)
Record BenchmarkRecord := {
  participant_count : Z;
  user_cycles : Z;
  total_cycles : Z;
  session_segments : Z;
  proving_time_ms : Z;
  total_time_ms : Z;
  receipt_size_bytes : Z;
  journal_size_bytes : Z;
  timestamp : string
}.

(** The data model of the specification: a positive participant count,
    non-negative measurements, totals at least their parts. *)
Definition well_formed (r : BenchmarkRecord) : Prop :=
  0 < participant_count r /\ 0 <= user_cycles r /\ user_cycles r <= total_cycles r /\
  0 <= session_segments r /\ 0 <= proving_time_ms r /\
  proving_time_ms r <= total_time_ms r /\
  0 <= receipt_size_bytes r /\ 0 <= journal_size_bytes r.

(** Python values that end up in a CSV cell or a plotted series. *)
Inductive pyval :=
| VInt (z : Z)
| VFloat (q : Q)
| VStr (s : string).

(** Python exceptions the script can raise. *)
Inductive exn :=
| ZeroDivisionError
| ValueError          (* math domain error *)
| JSONDecodeError
| SystemExit (code : Z).

Inductive result (A : Type) :=
| Ok (a : A)
| Raise (e : exn).
Arguments Ok {A} a.
Arguments Raise {A} e.

(** ** Files *)

(** What [json.load] makes of a file: a parse failure or a document. *)
Inductive file_content (A : Type) :=
| Malformed
| Document (a : A).
Arguments Malformed {A}.
Arguments Document {A} a.

(** A results directory: the aggregate file [benchmark_summary.json], when
    present, holds a JSON array of records; every other entry is listed by
    name and, when it parses, holds one JSON record object. *)
Record directory := {
  summary_file : option (file_content (list BenchmarkRecord));
  entries : gmap string (file_content BenchmarkRecord)
}.

(** The series of the four panels handed to matplotlib by [generate_plot]. *)
Record plot := {
  plot_participants : list Z;
  plot_user_cycles : list Z;
  plot_total_cycles : list Z;
  plot_segments : list Z;
  plot_times : list Q;
  plot_overhead : list pyval
}.

(** Files the script writes, by full path. *)
Inductive artifact :=
| CsvFile (rows : list (list pyval))
| PngFile (p : plot).

(** The process environment: what was printed so far, the directories that
    exist, the files written (by full path; the script never reads back
    what it wrote), and whether matplotlib can be imported. *)
Record world := {
  stdout : list string;
  disk : gmap string directory;
  written : gmap string artifact;
  matplotlib : bool
}.

(** ** The [Py] monad: state passing with exceptions *)

Definition Py (A : Type) : Type := world -> world * result A.

Definition ret {A} (a : A) : Py A := fun w => (w, Ok a).

Definition raise {A} (e : exn) : Py A := fun w => (w, Raise e).

Definition bind {A B} (c : Py A) (k : A -> Py B) : Py B :=
  fun w =>
    match c w with
    | (w', Ok a) => k a w'
    | (w', Raise e) => (w', Raise e)
    end.

Declare Scope py_scope.
Delimit Scope py_scope with py.
Notation "x <- c1 ;; c2" := (bind c1 (fun x => c2))
  (at level 100, c1 at next level, c2 at level 200, right associativity) : py_scope.
Notation "c1 ;; c2" := (bind c1 (fun _ => c2))
  (at level 100, c2 at level 200, right associativity) : py_scope.
Local Open Scope py_scope.

(** The world after [lines] went to standard output. *)
Definition emit (lines : list string) (w : world) : world :=
  {| stdout := stdout w ++ lines; disk := disk w;
     written := written w; matplotlib := matplotlib w |}.

(** The world after the file at [path] was replaced by [a]. *)
Definition store (path : string) (a : artifact) (w : world) : world :=
  {| stdout := stdout w; disk := disk w;
     written := <[path := a]> (written w); matplotlib := matplotlib w |}.

(** [print(s)]: one more string on standard output. *)
Definition print (s : string) : Py unit := fun w => (emit [s] w, Ok tt).

(** [for x in l: body(x)] *)
Fixpoint for_each {A} (l : list A) (body : A -> Py unit) : Py unit :=
  match l with
  | [] => ret tt
  | x :: l' => body x ;; for_each l' body
  end.

(** ** Python built-ins used by the script *)

(** [a / b] on numbers: true division, [ZeroDivisionError] on a zero divisor. *)
Definition py_div (a b : Q) : Py Q :=
  if Qeq_bool b 0 then raise ZeroDivisionError else ret (a / b)%Q.

(** [sum(f(d) for d in l)]: the generator is consumed left to right and the
    first exception stops the sum. *)
Fixpoint py_sum_from {A} (acc : Q) (f : A -> Py Q) (l : list A) : Py Q :=
  match l with
  | [] => ret acc
  | d :: l' => v <- f d ;; py_sum_from (acc + v)%Q f l'
  end.

Definition py_sum {A} (f : A -> Py Q) (l : list A) : Py Q := py_sum_from 0%Q f l.

(** [min(x0, *l, key=key)] and [max]: the first extremal element wins. *)
Fixpoint min_by {A} (key : A -> Z) (cur : A) (l : list A) : A :=
  match l with
  | [] => cur
  | y :: l' => if key y <? key cur then min_by key y l' else min_by key cur l'
  end.

Fixpoint max_by {A} (key : A -> Z) (cur : A) (l : list A) : A :=
  match l with
  | [] => cur
  | y :: l' => if key cur <? key y then max_by key y l' else max_by key cur l'
  end.

(** [sorted(l)] under a comparison [le]: a stable sort (insertion from the
    right keeps equal elements in their input order). *)
Fixpoint insert_sorted {A} (le : A -> A -> bool) (x : A) (l : list A) : list A :=
  match l with
  | [] => [x]
  | y :: l' => if le x y then x :: y :: l' else y :: insert_sorted le x l'
  end.

Fixpoint sorted {A} (le : A -> A -> bool) (l : list A) : list A :=
  match l with
  | [] => []
  | x :: l' => insert_sorted le x (sorted le l')
  end.

(** [key=lambda x: x['participant_count']] *)
Definition by_participants (x y : BenchmarkRecord) : bool :=
  participant_count x <=? participant_count y.

(** ** String formatting *)

Definition nl : string := String (ascii_of_nat 10) EmptyString.

(** [s * n] *)
Fixpoint str_mul (s : string) (n : nat) : string :=
  match n with
  | O => ""
  | S n' => s +:+ str_mul s n'
  end.

(** [str(z)] *)
Definition str (z : Z) : string := NilZero.string_of_int (Z.to_int z).

(** [len(l)] *)
Definition len {A} (l : list A) : Z := Z.of_nat (length l).

(** [s.rjust(w)], the [>w] of a format specification. *)
Definition rjust (w : nat) (s : string) : string :=
  str_mul " " (w - String.length s) +:+ s.

(** Thousands separators over a digit string: a comma after every digit
    that is followed by a positive multiple of three digits. *)
Fixpoint group_digits (ds : list ascii) : list ascii :=
  match ds with
  | [] => []
  | d :: ds' =>
      if (negb (Nat.eqb (length ds') 0) && Nat.eqb (length ds' mod 3) 0)%bool
      then d :: ","%char :: group_digits ds'
      else d :: group_digits ds'
  end.

Definition with_commas (s : string) : string :=
  string_of_list_ascii (group_digits (list_ascii_of_string s)).

(** [f"{z:,}"] *)
Definition fmt_int_comma (z : Z) : string :=
  (if z <? 0 then "-" else "") +:+ with_commas (str (Z.abs z)).

(** Nearest integer, ties to even: the rounding of [%.Nf]. *)
Definition round_half_even (q : Q) : Z :=
  let n := Qnum q in
  let d := Zpos (Qden q) in
  let f := n / d in
  match (2 * (n mod d)) ?= d with
  | Lt => f
  | Gt => f + 1
  | Eq => if Z.even f then f else f + 1
  end.

(** [f"{q:.{prec}f}"], and [f"{q:,.{prec}f}"] when [comma] is set. *)
Definition fmt_fixed (comma : bool) (prec : nat) (q : Q) : string :=
  let scale := 10 ^ Z.of_nat prec in
  let scaled := round_half_even (Qabs q * inject_Z scale) in
  let int_part := str (scaled / scale) in
  let frac := str (scaled mod scale) in
  (if Qle_bool 0 q then "" else "-") +:+
  (if comma then with_commas int_part else int_part) +:+
  (match prec with
   | O => ""
   | _ => "." +:+ str_mul "0" (prec - String.length frac) +:+ frac
   end).

(** [a > b] on floats. *)
Definition Qgt_bool (a b : Q) : bool := negb (Qle_bool a b).

(** Integers enter float arithmetic unchanged. *)
Definition float (z : Z) : Q := inject_Z z.

(** ** The Reporter: [print_statistics] *)

(** The fixed table header of line 55. *)
Definition table_header : string :=
  rjust 4 "N" +:+ " | " +:+ rjust 12 "User Cycles" +:+ " | " +:+
  rjust 13 "Total Cycles" +:+ " | " +:+ rjust 8 "Segments" +:+ " | " +:+
  rjust 12 "Proving (ms)" +:+ " | " +:+ rjust 10 "Total (ms)" +:+ " | " +:+
  rjust 12 "Receipt (KB)" +:+ " | " +:+ rjust 12 "Journal (KB)".

(** The body of the table loop, lines 59-68: one formatted row. *)
Definition table_row (item : BenchmarkRecord) : string :=
  let n := participant_count item in
  let user_cycles := user_cycles item in
  let total_cycles := total_cycles item in
  let segments := session_segments item in
  let proving_ms := proving_time_ms item in
  let total_ms := total_time_ms item in
  let receipt_kb := (float (receipt_size_bytes item) / 1024)%Q in
  let journal_kb := (float (journal_size_bytes item) / 1024)%Q in
  rjust 4 (str n) +:+ " | " +:+ rjust 12 (fmt_int_comma user_cycles) +:+ " | " +:+
  rjust 13 (fmt_int_comma total_cycles) +:+ " | " +:+ rjust 8 (str segments) +:+ " | " +:+
  rjust 12 (fmt_int_comma proving_ms) +:+ " | " +:+ rjust 10 (fmt_int_comma total_ms) +:+
  " | " +:+ rjust 12 (fmt_fixed false 2 receipt_kb) +:+ " | " +:+
  rjust 12 (fmt_fixed false 2 journal_kb).

(** Lines 43-56: banner, overall statistics and the table header. *)
Definition print_overall (d0 : BenchmarkRecord) (rest : list BenchmarkRecord) : Py unit :=
  let counts := map participant_count rest in
  print (nl +:+ str_mul "=" 80) ;;
  print "RISC Zero Auction Benchmark Analysis" ;;
  print (str_mul "=" 80 +:+ nl) ;;
  print ("Total benchmark runs: " +:+ str (len (d0 :: rest))) ;;
  print ("Participant range: " +:+
         str (min_by id (participant_count d0) counts) +:+ " to " +:+
         str (max_by id (participant_count d0) counts)) ;;
  print "" ;;
  print "Detailed Results:" ;;
  print (str_mul "-" 135) ;;
  print table_header ;;
  print (str_mul "-" 135).

(** Lines 58-71: the rows in ascending participant count. *)
Definition print_table (data : list BenchmarkRecord) : Py unit :=
  for_each (sorted by_participants data) (fun item => print (table_row item)) ;;
  print (str_mul "-" 135) ;;
  print "".

(** The five ratios of lines 81-85. *)
Record ratios := {
  n_ratio : Q;
  user_cycle_ratio : Q;
  total_cycle_ratio : Q;
  segment_ratio : Q;
  time_ratio : Q
}.

(** Lines 73-92: minimum against maximum participant count. *)
Definition print_scaling (d0 : BenchmarkRecord) (rest : list BenchmarkRecord) : Py ratios :=
  print "Scaling Analysis:" ;;
  print (str_mul "-" 80) ;;
  let first := min_by participant_count d0 rest in
  let last := max_by participant_count d0 rest in
  n_ratio <- py_div (float (participant_count last)) (float (participant_count first)) ;;
  user_cycle_ratio <- py_div (float (user_cycles last)) (float (user_cycles first)) ;;
  total_cycle_ratio <- py_div (float (total_cycles last)) (float (total_cycles first)) ;;
  segment_ratio <- py_div (float (session_segments last)) (float (session_segments first)) ;;
  time_ratio <- py_div (float (total_time_ms last)) (float (total_time_ms first)) ;;
  print ("Participants increased by: " +:+ fmt_fixed false 1 n_ratio +:+ "x (" +:+
         str (participant_count first) +:+ " → " +:+ str (participant_count last) +:+ ")") ;;
  print ("User cycles increased by:  " +:+ fmt_fixed false 2 user_cycle_ratio +:+ "x (" +:+
         fmt_int_comma (user_cycles first) +:+ " → " +:+
         fmt_int_comma (user_cycles last) +:+ ")") ;;
  print ("Total cycles increased by: " +:+ fmt_fixed false 2 total_cycle_ratio +:+ "x (" +:+
         fmt_int_comma (total_cycles first) +:+ " → " +:+
         fmt_int_comma (total_cycles last) +:+ ")") ;;
  print ("Segments increased by:     " +:+ fmt_fixed false 2 segment_ratio +:+ "x (" +:+
         str (session_segments first) +:+ " → " +:+ str (session_segments last) +:+ ")") ;;
  print ("Time increased by:         " +:+ fmt_fixed false 2 time_ratio +:+ "x (" +:+
         fmt_int_comma (total_time_ms first) +:+ "ms → " +:+
         fmt_int_comma (total_time_ms last) +:+ "ms)") ;;
  print "" ;;
  ret {| n_ratio := n_ratio; user_cycle_ratio := user_cycle_ratio;
         total_cycle_ratio := total_cycle_ratio; segment_ratio := segment_ratio;
         time_ratio := time_ratio |}.

(** One term of the average of line 115: the division is not guarded. *)
Definition overhead_unguarded (d : BenchmarkRecord) : Py Q :=
  q <- py_div (float (total_cycles d - user_cycles d)) (float (user_cycles d)) ;;
  ret (q * 100)%Q.

(** Lines 107-121. *)
Definition print_efficiency (data : list BenchmarkRecord) : Py unit :=
  print "Efficiency Metrics:" ;;
  print (str_mul "-" 80) ;;
  s1 <- py_sum (fun d => py_div (float (user_cycles d)) (float (participant_count d))) data ;;
  avg_user_cycles_per_participant <- py_div s1 (float (len data)) ;;
  s2 <- py_sum (fun d => py_div (float (total_cycles d)) (float (participant_count d))) data ;;
  avg_total_cycles_per_participant <- py_div s2 (float (len data)) ;;
  s3 <- py_sum (fun d => py_div (float (total_time_ms d)) (float (participant_count d))) data ;;
  avg_time_per_participant <- py_div s3 (float (len data)) ;;
  s4 <- py_sum overhead_unguarded data ;;
  avg_overhead <- py_div s4 (float (len data)) ;;
  print ("Average user cycles per participant:    " +:+
         fmt_fixed true 0 avg_user_cycles_per_participant) ;;
  print ("Average total cycles per participant:   " +:+
         fmt_fixed true 0 avg_total_cycles_per_participant) ;;
  print ("Average cycle overhead (padding):       " +:+ fmt_fixed false 1 avg_overhead +:+ "%") ;;
  print ("Average time per participant:           " +:+
         fmt_fixed true 0 avg_time_per_participant +:+ " ms") ;;
  print "".

Section Reporter.

(** The float [math.log] returns on a positive argument. *)
Variable log_value : Q -> Q.

(** [math.log(x)]: a domain error unless [x] is positive. *)
Definition math_log (x : Q) : Py Q :=
  if Qle_bool x 0 then raise ValueError else ret (log_value x).

(** Lines 94-105: the power-law exponents, only when the participant ratio
    exceeds one. *)
Definition print_complexity (r : ratios) : Py unit :=
  if Qgt_bool (n_ratio r) 1 then
    lu <- math_log (user_cycle_ratio r) ;;
    ln1 <- math_log (n_ratio r) ;;
    complexity_user_cycles <- py_div lu ln1 ;;
    lt <- math_log (total_cycle_ratio r) ;;
    ln2 <- math_log (n_ratio r) ;;
    complexity_total_cycles <- py_div lt ln2 ;;
    ltm <- math_log (time_ratio r) ;;
    ln3 <- math_log (n_ratio r) ;;
    complexity_time <- py_div ltm ln3 ;;
    print "Estimated Computational Complexity:" ;;
    print ("  User Cycles:  O(n^" +:+ fmt_fixed false 2 complexity_user_cycles +:+ ")") ;;
    print ("  Total Cycles: O(n^" +:+ fmt_fixed false 2 complexity_total_cycles +:+ ")") ;;
    print ("  Time:         O(n^" +:+ fmt_fixed false 2 complexity_time +:+ ")") ;;
    print ""
  else ret tt.

(** [print_statistics(data)], lines 37-121. *)
Definition print_statistics (data : list BenchmarkRecord) : Py unit :=
  match data with
  | [] => print "No data to analyze"
  | d0 :: rest =>
      print_overall d0 rest ;;
      print_table data ;;
      r <- print_scaling d0 rest ;;
      print_complexity r ;;
      print_efficiency data
  end.

End Reporter.

(** ** The CSV Exporter: [generate_csv_report] *)

(** [open(path, 'w')]: the file exists and is empty from now on. *)
Definition open_w (path : string) : Py unit :=
  fun w => (store path (CsvFile []) w, Ok tt).

(** [writer.writerow(row)] on the file opened at [path]. *)
Definition writerow (path : string) (row : list pyval) : Py unit :=
  fun w =>
    let rows := match written w !! path with
                | Some (CsvFile rows) => rows
                | _ => []
                end in
    (store path (CsvFile (rows ++ [row])) w, Ok tt).

Definition csv_header : list pyval :=
  map VStr ["N"; "User Cycles"; "Total Cycles"; "Segments"; "Proving Time (ms)";
            "Total Time (ms)"; "Receipt Size (bytes)"; "Journal Size (bytes)";
            "User Cycles/Participant"; "Total Cycles/Participant"; "Overhead %";
            "Time/Participant (ms)"; "Timestamp"].

(** Line 134: [(total - user) / user * 100 if user > 0 else 0]. *)
Definition csv_overhead (item : BenchmarkRecord) : Py pyval :=
  if 0 <? user_cycles item then
    q <- py_div (float (total_cycles item - user_cycles item)) (float (user_cycles item)) ;;
    ret (VFloat (q * 100)%Q)
  else ret (VInt 0).

(** Lines 134-149: the cells of one data row, evaluated left to right. *)
Definition csv_row (item : BenchmarkRecord) : Py (list pyval) :=
  overhead <- csv_overhead item ;;
  user_per <- py_div (float (user_cycles item)) (float (participant_count item)) ;;
  total_per <- py_div (float (total_cycles item)) (float (participant_count item)) ;;
  time_per <- py_div (float (total_time_ms item)) (float (participant_count item)) ;;
  ret [VInt (participant_count item); VInt (user_cycles item); VInt (total_cycles item);
       VInt (session_segments item); VInt (proving_time_ms item);
       VInt (total_time_ms item); VInt (receipt_size_bytes item);
       VInt (journal_size_bytes item); VFloat user_per; VFloat total_per;
       overhead; VFloat time_per; VStr (timestamp item)].

(** [generate_csv_report(data, output_file)], lines 123-151.  An exception
    inside the [with] block closes the file and leaves what was written. *)
Definition generate_csv_report (data : list BenchmarkRecord) (output_file : string) : Py unit :=
  open_w output_file ;;
  writerow output_file csv_header ;;
  for_each (sorted by_participants data)
    (fun item => row <- csv_row item ;; writerow output_file row) ;;
  print ("✓ Detailed CSV report saved to: " +:+ output_file).

(** ** Paths *)

(** [os.path.join(a, b)] for a relative [b]. *)
Definition os_path_join (a b : string) : string :=
  match last (list_ascii_of_string a) with
  | None => b
  | Some c => if Ascii.eqb c "/"%char then a +:+ b else a +:+ "/" +:+ b
  end.

(** ** The Chart Renderer: [generate_plot] *)

(** Line 202: the guarded overhead of one point. *)
Definition plot_overhead_point (u t : Z) : pyval :=
  if 0 <? u then VFloat (float (t - u) / float u * 100)%Q else VInt 0.

(** [plt.savefig(path)] of the composed figure. *)
Definition savefig (path : string) (p : plot) : Py unit :=
  fun w => (store path (PngFile p) w, Ok tt).

(** [import matplotlib.pyplot]: whether the import succeeds. *)
Definition import_matplotlib : Py bool := fun w => (w, Ok (matplotlib w)).

(** [generate_plot(data, output_dir)], lines 153-214. *)
Definition generate_plot (data : list BenchmarkRecord) (output_dir : string) : Py unit :=
  available <- import_matplotlib ;;
  if available then
    let sorted_data := sorted by_participants data in
    let participants := map participant_count sorted_data in
    let user_cycles := map user_cycles sorted_data in
    let total_cycles := map total_cycles sorted_data in
    let segments := map session_segments sorted_data in
    let times := map (fun d => (float (total_time_ms d) / 1000)%Q) sorted_data in
    let overhead :=
      map (fun ut => plot_overhead_point (fst ut) (snd ut)) (combine user_cycles total_cycles) in
    let output_file := os_path_join output_dir "benchmark_plots.png" in
    savefig output_file
      {| plot_participants := participants; plot_user_cycles := user_cycles;
         plot_total_cycles := total_cycles; plot_segments := segments;
         plot_times := times; plot_overhead := overhead |} ;;
    print ("✓ Plots saved to: " +:+ output_file)
  else
    print "Note: matplotlib not available, skipping plot generation" ;;
    print "      Install with: pip install matplotlib".

(** ** The Loader: [load_benchmark_data] *)

(** Shell-style matching of a file name against a pattern whose only
    wildcard is [*] (any run of characters, possibly empty). *)
Fixpoint fnmatch (pat name : list ascii) : bool :=
  match pat with
  | [] => match name with [] => true | _ => false end
  | p :: pat' =>
      if Ascii.eqb p "*"%char then
        (fix star (name : list ascii) : bool :=
           (fnmatch pat' name ||
            match name with
            | [] => false
            | _ :: name' => star name'
            end)%bool) name
      else
        match name with
        | [] => false
        | c :: name' => (Ascii.eqb p c && fnmatch pat' name')%bool
        end
  end.

Definition glob_match (pattern name : string) : bool :=
  fnmatch (list_ascii_of_string pattern) (list_ascii_of_string name).

(** [summary_file.exists()], with the file when it does. *)
Definition stat_summary (results_dir : string)
  : Py (option (file_content (list BenchmarkRecord))) :=
  fun w => (w, Ok (match disk w !! results_dir with
                   | Some d => summary_file d
                   | None => None
                   end)).

(** [Path(results_dir).glob(pattern)]: the matching entries, in no
    particular order. *)
Definition glob (results_dir pattern : string)
  : Py (list (string * file_content BenchmarkRecord)) :=
  fun w => (w, Ok (match disk w !! results_dir with
                   | Some d => filter (fun nf => glob_match pattern (fst nf) = true)
                                 (map_to_list (entries d))
                   | None => []
                   end)).

(** [json.load(f)] *)
Definition json_load {A} (f : file_content A) : Py A :=
  match f with
  | Malformed => raise JSONDecodeError
  | Document a => ret a
  end.

(** Paths of one directory compare by file name. *)
Definition by_name {A} (x y : string * A) : bool := String.leb (fst x) (fst y).

(** The fallback loop of lines 31-33, from the [results] collected so far. *)
Fixpoint load_each (results : list BenchmarkRecord)
    (files : list (string * file_content BenchmarkRecord)) : Py (list BenchmarkRecord) :=
  match files with
  | [] => ret results
  | json_file :: files' =>
      r <- json_load (snd json_file) ;;
      load_each (results ++ [r]) files'
  end.

(** [load_benchmark_data(results_dir)], lines 21-35. *)
Definition load_benchmark_data (results_dir : string) : Py (list BenchmarkRecord) :=
  summary_file <- stat_summary results_dir ;;
  match summary_file with
  | Some f => json_load f
  | None =>
      found <- glob results_dir "benchmark_N*.json" ;;
      load_each [] (sorted by_name found)
  end.

(** ** The Driver: [main] *)

(** [os.path.exists(results_dir)] *)
Definition os_path_exists (path : string) : Py bool :=
  fun w => (w, Ok (bool_decide (is_Some (disk w !! path)))).

(** [sys.exit(code)] *)
Definition sys_exit {A} (code : Z) : Py A := raise (SystemExit code).

(** Lines 218-221: the directory named on the command line, or the default. *)
Definition argv_results_dir (argv : list string) : string :=
  if 1 <? len argv then nth 1 argv "" else "benchmark_results/latest".

Section Driver.

Variable log_value : Q -> Q.

(** [main()], lines 216-250, with [sys.argv] as a parameter. *)
Definition main (argv : list string) : Py unit :=
  let results_dir := argv_results_dir argv in
  found <- os_path_exists results_dir ;;
  (if negb found then
     print ("Error: Results directory not found: " +:+ results_dir) ;;
     print (nl +:+ "Usage: " +:+ nth 0 argv "" +:+ " [results_dir]") ;;
     sys_exit 1
   else ret tt) ;;
  print ("Loading benchmark data from: " +:+ results_dir) ;;
  data <- load_benchmark_data results_dir ;;
  (match data with
   | [] => print "Error: No benchmark data found" ;; sys_exit 1
   | _ => ret tt
   end) ;;
  print ("Loaded " +:+ str (len data) +:+ " benchmark results") ;;
  print_statistics log_value data ;;
  let csv_output := os_path_join results_dir "detailed_analysis.csv" in
  generate_csv_report data csv_output ;;
  generate_plot data results_dir ;;
  print (nl +:+ str_mul "=" 80) ;;
  print "Analysis complete!" ;;
  print (str_mul "=" 80 +:+ nl).

(** The exit status of the interpreter: 0 on fall-through, the code of a
    [SystemExit], 1 after any other uncaught exception. *)
Definition exit_status (r : result unit) : Z :=
  match r with
  | Ok _ => 0
  | Raise (SystemExit code) => code
  | Raise _ => 1
  end.

(** Running the script: the final world and the exit status. *)
Definition run_script (argv : list string) (w : world) : world * Z :=
  let (w', r) := main argv w in (w', exit_status r).

End Driver.

(** ** Observations of a run *)

(** A world in which nothing was printed or written yet. *)
Definition blank : world :=
  {| stdout := []; disk := ∅; written := ∅; matplotlib := false |}.

(** What a computation prints, and how it ends, from the blank world. *)
Definition printed {A} (c : Py A) : list string := stdout (fst (c blank)).
Definition outcome {A} (c : Py A) : result A := snd (c blank).

(** A computation that only prints: in every world it appends the same
    lines and ends the same way. *)
Definition writer {A} (c : Py A) : Prop :=
  forall w, c w = (emit (printed c) w, outcome c).

(** ** Specification vocabulary: the Reporter *)

(** The ratios of lines 81-85 between two records. *)
Definition scaling_ratios (first last : BenchmarkRecord) : ratios :=
  {| n_ratio := float (participant_count last) / float (participant_count first);
     user_cycle_ratio := float (user_cycles last) / float (user_cycles first);
     total_cycle_ratio := float (total_cycles last) / float (total_cycles first);
     segment_ratio := float (session_segments last) / float (session_segments first);
     time_ratio := float (total_time_ms last) / float (total_time_ms first) |}%Q.

(** The five divisors of the scaling comparison. *)
Definition scaling_divisors (first : BenchmarkRecord) : list Z :=
  [participant_count first; user_cycles first; total_cycles first;
   session_segments first; total_time_ms first].

(** The five lines of the section, lines 101-105. *)
Definition complexity_lines (log : Q -> Q) (r : ratios) : list string :=
  ["Estimated Computational Complexity:";
   "  User Cycles:  O(n^" +:+
     fmt_fixed false 2 (log (user_cycle_ratio r) / log (n_ratio r)) +:+ ")";
   "  Total Cycles: O(n^" +:+
     fmt_fixed false 2 (log (total_cycle_ratio r) / log (n_ratio r)) +:+ ")";
   "  Time:         O(n^" +:+
     fmt_fixed false 2 (log (time_ratio r) / log (n_ratio r)) +:+ ")";
   ""].

(** A writer that can only stop with an exception satisfying [P]. *)
Definition raises_only {A} (P : exn -> Prop) (c : Py A) : Prop :=
  forall e, outcome c = Raise e -> P e.

(** The two arithmetic failures of the Reporter. *)
Definition arith_error (e : exn) : Prop := e = ZeroDivisionError \/ e = ValueError.

(** ** Specification vocabulary: the CSV Exporter and the Chart Renderer *)

(** The value of the Overhead % cell. *)
Definition overhead_value (item : BenchmarkRecord) : pyval :=
  if 0 <? user_cycles item
  then VFloat (float (total_cycles item - user_cycles item) / float (user_cycles item) * 100)%Q
  else VInt 0.

(** The data row of a record with a non-zero participant count. *)
Definition csv_cells (item : BenchmarkRecord) : list pyval :=
  [VInt (participant_count item); VInt (user_cycles item); VInt (total_cycles item);
   VInt (session_segments item); VInt (proving_time_ms item);
   VInt (total_time_ms item); VInt (receipt_size_bytes item);
   VInt (journal_size_bytes item);
   VFloat (float (user_cycles item) / float (participant_count item))%Q;
   VFloat (float (total_cycles item) / float (participant_count item))%Q;
   overhead_value item;
   VFloat (float (total_time_ms item) / float (participant_count item))%Q;
   VStr (timestamp item)].

(** The records whose rows reach the file: those before the first zero
    participant count. *)
Fixpoint exported (items : list BenchmarkRecord) : list BenchmarkRecord :=
  match items with
  | [] => []
  | item :: items' =>
      if decide (participant_count item = 0) then [] else item :: exported items'
  end.

(** The two lines printed when matplotlib cannot be imported. *)
Definition matplotlib_note : list string :=
  ["Note: matplotlib not available, skipping plot generation";
   "      Install with: pip install matplotlib"].

(** ** Specification vocabulary: the Loader and the Driver *)

(** The records of a list of files, in order; the first file that does
    not parse is fatal. *)
Fixpoint parse_all (files : list (string * file_content BenchmarkRecord))
  : result (list BenchmarkRecord) :=
  match files with
  | [] => Ok []
  | (_, Malformed) :: _ => Raise JSONDecodeError
  | (_, Document r) :: files' =>
      match parse_all files' with
      | Ok rs => Ok (r :: rs)
      | Raise e => Raise e
      end
  end.

(** The per-run files of a directory, sorted by name. *)
Definition run_files (d : directory) : list (string * file_content BenchmarkRecord) :=
  sorted by_name
    (filter (fun nf => glob_match "benchmark_N*.json" (fst nf) = true)
       (map_to_list (entries d))).

(** What the loader returns for a directory, if there is one. *)
Definition load_result (od : option directory) : result (list BenchmarkRecord) :=
  match od with
  | None => Ok []
  | Some d =>
      match summary_file d with
      | Some Malformed => Raise JSONDecodeError
      | Some (Document rs) => Ok rs
      | None => parse_all (run_files d)
      end
  end.

(** The final banner of lines 248-250. *)
Definition completion_banner : list string :=
  [nl +:+ str_mul "=" 80; "Analysis complete!"; str_mul "=" 80 +:+ nl].

(** The exit status as a function of the results directory alone. *)
Definition expected_status (log : Q -> Q) (od : option directory) : Z :=
  match od with
  | None => 1
  | Some d =>
      match load_result (Some d) with
      | Raise e => exit_status (Raise e)
      | Ok [] => 1
      | Ok data =>
          match outcome (print_statistics log data) with
          | Raise e => exit_status (Raise e)
          | Ok _ => if decide (Forall (fun r => participant_count r <> 0) data) then 0 else 1
          end
      end
  end.

(** ** Sample inputs *)

(** The two records of the end-to-end scenario. *)
Definition scenario_n1 : BenchmarkRecord :=
  {| participant_count := 1; user_cycles := 1000; total_cycles := 1024;
     session_segments := 1; proving_time_ms := 500; total_time_ms := 600;
     receipt_size_bytes := 2048; journal_size_bytes := 512; timestamp := "t1" |}.

Definition scenario_n10 : BenchmarkRecord :=
  {| participant_count := 10; user_cycles := 9500; total_cycles := 16384;
     session_segments := 4; proving_time_ms := 4500; total_time_ms := 5000;
     receipt_size_bytes := 2048; journal_size_bytes := 4096; timestamp := "t2" |}.

(** A run that reports no user cycles, and one at ten participants. *)
Definition idle_n1 : BenchmarkRecord :=
  {| participant_count := 1; user_cycles := 0; total_cycles := 1024;
     session_segments := 1; proving_time_ms := 500; total_time_ms := 600;
     receipt_size_bytes := 2048; journal_size_bytes := 512; timestamp := "t0" |}.

Definition idle_n10 : BenchmarkRecord :=
  {| participant_count := 10; user_cycles := 0; total_cycles := 16384;
     session_segments := 4; proving_time_ms := 4500; total_time_ms := 5000;
     receipt_size_bytes := 2048; journal_size_bytes := 4096; timestamp := "t3" |}.

(** A stand-in for [math.log] with the sign of the logarithm: negative
    below one, zero at one, positive above. *)
Definition log_sign (x : Q) : Q := (x - 1)%Q.

(** A world whose only directory is [dir]. *)
Definition world_with (dir : string) (d : directory) (mpl : bool) : world :=
  {| stdout := []; disk := {[ dir := d ]}; written := ∅; matplotlib := mpl |}.

(** The results directory of the end-to-end scenario. *)
Definition scenario_dir : directory :=
  {| summary_file := Some (Document [scenario_n1; scenario_n10]); entries := ∅ |}.

(** A directory that holds both sources: an empty summary and a per-run file. *)
Definition both_sources_dir : directory :=
  {| summary_file := Some (Document []);
     entries := {[ "benchmark_N1.json" := Document scenario_n1 ]} |}.

(** A directory whose summary holds one run without user cycles. *)
Definition idle_dir : directory :=
  {| summary_file := Some (Document [idle_n1]); entries := ∅ |}.

(** A directory with the scenario's summary next to a per-run file that
    does not parse. *)
Definition summary_and_broken_run_dir : directory :=
  {| summary_file := Some (Document [scenario_n1; scenario_n10]);
     entries := {[ "benchmark_N5.json" := Malformed ]} |}.

(** A directory without a summary: two per-run files and two entries that
    the pattern does not match. *)
Definition per_run_dir : directory :=
  {| summary_file := None;
     entries := {[ "benchmark_N10.json" := Document scenario_n10;
                   "benchmark_N1.json" := Document scenario_n1;
                   "benchmark_summary.txt" := Malformed;
                   "detailed_analysis.csv" := Malformed ]} |}.

(** * Properties *)

(** ** Formatting *)

(** The format specifications used by the report, on sample values. *)
Example fmt_examples :
  (rjust 4 (str 7), fmt_int_comma 1234567, fmt_int_comma (-1000), fmt_int_comma 999,
   fmt_fixed false 2 (19 # 2), fmt_fixed false 1 (10 # 1), fmt_fixed true 0 (12345 # 2),
   fmt_fixed false 2 (-1 # 8), fmt_fixed false 2 (2 # 1000))
  = ("   7", "1,234,567", "-1,000", "999", "9.50", "10.0", "6,172", "-0.12", "0.00").
Proof. vm_compute. reflexivity. Qed.

(** ** The monad and its writers *)

Lemma emit_nil w : emit [] w = w.
Proof. destruct w; unfold emit; simpl. by rewrite app_nil_r. Qed.

Lemma emit_emit l1 l2 w : emit l2 (emit l1 w) = emit (l1 ++ l2) w.
Proof. unfold emit; simpl. by rewrite app_assoc. Qed.

Lemma stdout_emit l w : stdout (emit l w) = stdout w ++ l.
Proof. reflexivity. Qed.

(** A computation that appends [l] and ends in [r] everywhere is a writer. *)
Lemma writer_of {A} (c : Py A) l r :
  (forall w, c w = (emit l w, r)) -> writer c /\ printed c = l /\ outcome c = r.
Proof.
  intros H.
  assert (Hp : printed c = l) by (unfold printed; rewrite H; reflexivity).
  assert (Ho : outcome c = r) by (unfold outcome; rewrite H; reflexivity).
  split; [|done]. intros w. by rewrite Hp, Ho.
Qed.

Lemma writer_ret {A} (a : A) : writer (ret a).
Proof. apply (writer_of (ret a) [] (Ok a)). intros w. unfold ret. by rewrite emit_nil. Qed.

Lemma writer_raise {A} e : writer (@raise A e).
Proof. apply (writer_of (raise e) [] (Raise e)). intros w. unfold raise. by rewrite emit_nil. Qed.

Lemma writer_print s : writer (print s).
Proof. by apply (writer_of (print s) [s] (Ok tt)). Qed.

Lemma bind_run {A B} (c : Py A) (k : A -> Py B) w :
  writer c ->
  bind c k w = match outcome c with
               | Ok a => k a (emit (printed c) w)
               | Raise e => (emit (printed c) w, Raise e)
               end.
Proof. intros Hc. unfold bind. rewrite Hc. by destruct (outcome c). Qed.

Lemma writer_bind {A B} (c : Py A) (k : A -> Py B) :
  writer c -> (forall a, writer (k a)) -> writer (bind c k).
Proof.
  intros Hc Hk.
  destruct (outcome c) as [a|e] eqn:Ho.
  - apply (writer_of _ (printed c ++ printed (k a)) (outcome (k a))).
    intros w. rewrite bind_run by done. by rewrite Ho, Hk, emit_emit.
  - apply (writer_of _ (printed c) (Raise e)).
    intros w. rewrite bind_run by done. by rewrite Ho.
Qed.

Lemma printed_bind {A B} (c : Py A) (k : A -> Py B) :
  writer c -> (forall a, writer (k a)) ->
  printed (bind c k) =
  printed c ++ match outcome c with Ok a => printed (k a) | Raise _ => [] end.
Proof.
  intros Hc Hk. unfold printed at 1. rewrite bind_run by done.
  destruct (outcome c) as [a|e]; [rewrite Hk; reflexivity|].
  simpl. by rewrite app_nil_r.
Qed.

Lemma outcome_bind {A B} (c : Py A) (k : A -> Py B) :
  writer c -> (forall a, writer (k a)) ->
  outcome (bind c k) =
  match outcome c with Ok a => outcome (k a) | Raise e => Raise e end.
Proof.
  intros Hc Hk. unfold outcome at 1. rewrite bind_run by done.
  destruct (outcome c) as [a|e]; [rewrite Hk|]; reflexivity.
Qed.

Lemma writer_if {A} (b : bool) (c1 c2 : Py A) :
  writer c1 -> writer c2 -> writer (if b then c1 else c2).
Proof. by destruct b. Qed.

Lemma writer_py_div a b : writer (py_div a b).
Proof. unfold py_div. apply writer_if; [apply writer_raise | apply writer_ret]. Qed.

Lemma writer_for_each {A} (body : A -> Py unit) l :
  (forall x, writer (body x)) -> writer (for_each l body).
Proof.
  intros Hb. induction l as [|x l IH]; simpl.
  - apply writer_ret.
  - apply writer_bind; auto.
Qed.

Lemma writer_py_sum_from {A} (f : A -> Py Q) l :
  (forall d, writer (f d)) -> forall acc, writer (py_sum_from acc f l).
Proof.
  intros Hf. induction l as [|d l IH]; intros acc; simpl.
  - apply writer_ret.
  - apply writer_bind; auto.
Qed.

Lemma writer_py_sum {A} (f : A -> Py Q) l :
  (forall d, writer (f d)) -> writer (py_sum f l).
Proof. intros Hf. by apply writer_py_sum_from. Qed.

Lemma writer_math_log log x : writer (math_log log x).
Proof. unfold math_log. apply writer_if; [apply writer_raise | apply writer_ret]. Qed.

Create HintDb writer.
#[local] Hint Resolve writer_ret writer_raise writer_print writer_py_div writer_math_log
  writer_if writer_py_sum writer_for_each writer_bind : writer.

Ltac writer :=
  repeat first
    [ match goal with |- forall _, _ => intro end
    | solve [ auto 2 with writer ]
    | apply writer_for_each | apply writer_py_sum
    | apply writer_bind | apply writer_if | progress cbv beta zeta ].

Lemma writer_print_overall d0 rest : writer (print_overall d0 rest).
Proof. unfold print_overall. writer. Qed.

Lemma writer_print_table data : writer (print_table data).
Proof. unfold print_table. writer. Qed.

Lemma writer_print_scaling d0 rest : writer (print_scaling d0 rest).
Proof. unfold print_scaling. writer. Qed.

Lemma writer_overhead_unguarded d : writer (overhead_unguarded d).
Proof. unfold overhead_unguarded. writer. Qed.

Lemma writer_print_efficiency data : writer (print_efficiency data).
Proof.
  unfold print_efficiency.
  pose proof writer_overhead_unguarded. writer.
Qed.

Lemma writer_print_complexity log r : writer (print_complexity log r).
Proof. unfold print_complexity. writer. Qed.

#[local] Hint Resolve writer_print_overall writer_print_table writer_print_scaling
  writer_print_efficiency writer_print_complexity writer_overhead_unguarded : writer.

Lemma writer_print_statistics log data : writer (print_statistics log data).
Proof. unfold print_statistics. destruct data; writer. Qed.

(** ** Sorting and extrema *)

Section Sorting.
Context {A : Type} (le : A -> A -> bool).

Lemma insert_sorted_Permutation x l : Permutation (insert_sorted le x l) (x :: l).
Proof.
  induction l as [|y l IH]; simpl; [done|].
  destruct (le x y); [done|].
  rewrite IH. apply perm_swap.
Qed.

Lemma sorted_Permutation l : Permutation (sorted le l) l.
Proof.
  induction l as [|x l IH]; simpl; [done|].
  by rewrite insert_sorted_Permutation, IH.
Qed.

Lemma sorted_length l : length (sorted le l) = length l.
Proof. apply Permutation_length, sorted_Permutation. Qed.

Hypothesis le_total : forall x y, le x y = false -> le y x = true.

Lemma insert_sorted_HdRel a x l :
  le a x = true -> HdRel (fun x y => le x y = true) a l ->
  HdRel (fun x y => le x y = true) a (insert_sorted le x l).
Proof.
  intros Hax Hal. destruct l as [|y l]; simpl.
  - by constructor.
  - destruct (le x y); constructor; [done|]. by inversion Hal.
Qed.

Lemma insert_sorted_Sorted x l :
  Sorted (fun x y => le x y = true) l ->
  Sorted (fun x y => le x y = true) (insert_sorted le x l).
Proof.
  induction 1 as [|y l Hs IH Hd]; simpl.
  - by repeat constructor.
  - destruct (le x y) eqn:E.
    + constructor; [by constructor|by constructor].
    + constructor; [done|]. apply insert_sorted_HdRel; auto.
Qed.

Lemma sorted_Sorted l : Sorted (fun x y => le x y = true) (sorted le l).
Proof.
  induction l as [|x l IH]; simpl; [constructor|].
  by apply insert_sorted_Sorted.
Qed.

End Sorting.

(** Rows sorted under [by_participants] ascend in participant count. *)
Lemma sorted_by_participants data :
  StronglySorted (fun x y => participant_count x <= participant_count y)
    (sorted by_participants data).
Proof.
  apply Sorted_StronglySorted.
  - intros x y z; lia.
  - eapply Sorted_ind with (P := Sorted _);
      [constructor| |apply (sorted_Sorted by_participants)].
    + intros a l _ IH Hd. constructor; [done|].
      destruct Hd; constructor. unfold by_participants in *. lia.
    + unfold by_participants. intros x y ?. lia.
Qed.

(** A stable sort: records of one participant count keep their input order. *)
Lemma filter_insert_sorted (k : Z) x l :
  StronglySorted (fun x y => participant_count x <= participant_count y) l ->
  filter (fun r => participant_count r = k) (insert_sorted by_participants x l) =
  filter (fun r => participant_count r = k) (x :: l).
Proof.
  induction 1 as [|y l Hs IH Hall]; simpl; [done|].
  unfold by_participants at 1.
  destruct (Z.leb_spec (participant_count x) (participant_count y)) as [Hle|Hlt]; [done|].
  rewrite !filter_cons. rewrite IH. rewrite !filter_cons.
  destruct (decide (participant_count y = k)), (decide (participant_count x = k)); try done.
  exfalso. lia.
Qed.

Lemma sorted_stable (k : Z) data :
  filter (fun r => participant_count r = k) (sorted by_participants data) =
  filter (fun r => participant_count r = k) data.
Proof.
  induction data as [|x l IH]; simpl; [done|].
  rewrite filter_insert_sorted by apply sorted_by_participants.
  by rewrite !filter_cons, IH.
Qed.

Lemma min_by_In {A} (key : A -> Z) cur l : In (min_by key cur l) (cur :: l).
Proof.
  revert cur. induction l as [|y l IH]; intros cur; simpl; [auto|].
  destruct (key y <? key cur); [right; apply IH|].
  destruct (IH cur) as [Heq|Hin]; [left; exact Heq|right; right; exact Hin].
Qed.

Lemma max_by_In {A} (key : A -> Z) cur l : In (max_by key cur l) (cur :: l).
Proof.
  revert cur. induction l as [|y l IH]; intros cur; simpl; [auto|].
  destruct (key cur <? key y); [right; apply IH|].
  destruct (IH cur) as [Heq|Hin]; [left; exact Heq|right; right; exact Hin].
Qed.

Lemma min_by_le {A} (key : A -> Z) cur l x :
  In x (cur :: l) -> key (min_by key cur l) <= key x.
Proof.
  revert cur x. induction l as [|y l IH]; intros cur x; simpl.
  - intros [->|[]]. lia.
  - destruct (Z.ltb_spec (key y) (key cur)); intros [->|[->|Hin]].
    + specialize (IH y y (or_introl eq_refl)). lia.
    + apply IH; by left.
    + apply IH; by right.
    + apply IH; by left.
    + specialize (IH cur cur (or_introl eq_refl)). lia.
    + apply IH; by right.
Qed.


(** ** Division *)

Lemma Qeq_bool_float z : Qeq_bool (float z) 0 = bool_decide (z = 0).
Proof.
  unfold float, Qeq_bool, inject_Z; simpl.
  case_bool_decide as H.
  - subst. reflexivity.
  - apply Z.eqb_neq. lia.
Qed.

Lemma py_div_zero a z : z = 0 -> py_div a (float z) = raise ZeroDivisionError.
Proof. intros ->. reflexivity. Qed.

Lemma py_div_nonzero a z : z <> 0 -> py_div a (float z) = ret (a / float z)%Q.
Proof.
  intros H. unfold py_div. rewrite Qeq_bool_float.
  by rewrite bool_decide_eq_false_2.
Qed.

(** ** The Reporter *)

Lemma for_each_print {A} (f : A -> string) l w :
  for_each l (fun x => print (f x)) w = (emit (map f l) w, Ok tt).
Proof.
  revert w. induction l as [|x l IH]; intros w; simpl.
  - unfold ret. by rewrite emit_nil.
  - unfold bind, print at 1. rewrite IH. by rewrite emit_emit.
Qed.

Lemma print_table_run data w :
  print_table data w =
  (emit (map table_row (sorted by_participants data) ++ [str_mul "-" 135; ""]) w, Ok tt).
Proof.
  unfold print_table, bind. rewrite for_each_print.
  unfold print. by rewrite !emit_emit.
Qed.

Lemma printed_print_table data :
  printed (print_table data) =
  map table_row (sorted by_participants data) ++ [str_mul "-" 135; ""].
Proof. unfold printed. by rewrite print_table_run. Qed.

Lemma outcome_print_table data : outcome (print_table data) = Ok tt.
Proof. unfold outcome. by rewrite print_table_run. Qed.

Lemma outcome_print_overall d0 rest : outcome (print_overall d0 rest) = Ok tt.
Proof. reflexivity. Qed.

(** The report splits into the blocks of the source, each printed only
    when the blocks before it raised nothing. *)
Lemma printed_print_statistics log d0 rest :
  printed (print_statistics log (d0 :: rest)) =
  printed (print_overall d0 rest) ++ printed (print_table (d0 :: rest)) ++
  printed (print_scaling d0 rest) ++
  match outcome (print_scaling d0 rest) with
  | Ok r =>
      printed (print_complexity log r) ++
      match outcome (print_complexity log r) with
      | Ok _ => printed (print_efficiency (d0 :: rest))
      | Raise _ => []
      end
  | Raise _ => []
  end.
Proof.
  unfold print_statistics.
  rewrite printed_bind by writer. rewrite outcome_print_overall.
  rewrite printed_bind by writer. rewrite outcome_print_table.
  rewrite printed_bind by writer.
  destruct (outcome (print_scaling d0 rest)) as [r|e]; [|done].
  by rewrite printed_bind by writer.
Qed.

Lemma outcome_print_statistics log d0 rest :
  outcome (print_statistics log (d0 :: rest)) =
  match outcome (print_scaling d0 rest) with
  | Ok r =>
      match outcome (print_complexity log r) with
      | Ok _ => outcome (print_efficiency (d0 :: rest))
      | Raise e => Raise e
      end
  | Raise e => Raise e
  end.
Proof.
  unfold print_statistics.
  rewrite outcome_bind by writer. rewrite outcome_print_overall.
  rewrite outcome_bind by writer. rewrite outcome_print_table.
  rewrite outcome_bind by writer.
  destruct (outcome (print_scaling d0 rest)) as [r|e]; [|done].
  by rewrite outcome_bind by writer.
Qed.

Lemma print_scaling_ok d0 rest :
  Forall (fun z => z <> 0) (scaling_divisors (min_by participant_count d0 rest)) ->
  outcome (print_scaling d0 rest) =
  Ok (scaling_ratios (min_by participant_count d0 rest) (max_by participant_count d0 rest)).
Proof.
  unfold scaling_divisors. intros H.
  repeat match goal with H : Forall _ (_ :: _) |- _ => apply Forall_cons in H as [? H] end.
  unfold outcome, print_scaling, bind. simpl.
  rewrite !py_div_nonzero by done. reflexivity.
Qed.

Lemma print_scaling_raise d0 rest :
  Exists (fun z => z = 0) (scaling_divisors (min_by participant_count d0 rest)) ->
  forall w, print_scaling d0 rest w =
            (emit ["Scaling Analysis:"; str_mul "-" 80] w, Raise ZeroDivisionError).
Proof.
  unfold scaling_divisors. intros H w.
  unfold print_scaling, bind, print. rewrite emit_emit.
  set (first := min_by participant_count d0 rest) in *.
  set (last := max_by participant_count d0 rest) in *.
  destruct (decide (participant_count first = 0)) as [E|E];
    [by rewrite (py_div_zero _ _ E)|rewrite (py_div_nonzero _ _ E); unfold ret at 1].
  destruct (decide (user_cycles first = 0)) as [E1|E1];
    [by rewrite (py_div_zero _ _ E1)|rewrite (py_div_nonzero _ _ E1); unfold ret at 1].
  destruct (decide (total_cycles first = 0)) as [E2|E2];
    [by rewrite (py_div_zero _ _ E2)|rewrite (py_div_nonzero _ _ E2); unfold ret at 1].
  destruct (decide (session_segments first = 0)) as [E3|E3];
    [by rewrite (py_div_zero _ _ E3)|rewrite (py_div_nonzero _ _ E3); unfold ret at 1].
  destruct (decide (total_time_ms first = 0)) as [E4|E4];
    [by rewrite (py_div_zero _ _ E4)|].
  exfalso.
  repeat match goal with
         | H : Exists _ (_ :: _) |- _ => apply Exists_cons in H as [?|H]; [done|]
         | H : Exists _ [] |- _ => by apply Exists_nil in H
         end.
Qed.

(** ** The CSV Exporter *)

Lemma store_store path a b w : store path a (store path b w) = store path a w.
Proof. unfold store; simpl. by rewrite insert_insert_eq. Qed.

Lemma csv_overhead_value item : csv_overhead item = ret (overhead_value item).
Proof.
  unfold csv_overhead, overhead_value.
  destruct (Z.ltb_spec 0 (user_cycles item)); [|done].
  rewrite py_div_nonzero by lia. reflexivity.
Qed.

Lemma csv_row_ok item :
  participant_count item <> 0 -> csv_row item = ret (csv_cells item).
Proof.
  intros H. unfold csv_row. rewrite csv_overhead_value.
  rewrite !py_div_nonzero by done. reflexivity.
Qed.

Lemma csv_row_raise item :
  participant_count item = 0 -> csv_row item = raise ZeroDivisionError.
Proof.
  intros H. unfold csv_row. rewrite csv_overhead_value.
  rewrite !py_div_zero by done. reflexivity.
Qed.

Lemma exported_all items :
  Forall (fun r => participant_count r <> 0) items -> exported items = items.
Proof.
  induction 1 as [|item items H _ IH]; simpl; [done|].
  destruct (decide _); [done|]. by rewrite IH.
Qed.

Lemma exported_prefix items : exists rest, items = exported items ++ rest.
Proof.
  induction items as [|item items [rest IH]]; simpl; [by exists []|].
  destruct (decide _).
  - by exists (item :: items).
  - exists rest. simpl. by rewrite <- IH.
Qed.

(** The loop of lines 133-149 on a file that holds [rows0]. *)
Lemma csv_loop path items : forall rows0 w,
  for_each items (fun item => row <- csv_row item ;; writerow path row)
    (store path (CsvFile rows0) w) =
  (store path (CsvFile (rows0 ++ map csv_cells (exported items))) w,
   if decide (Forall (fun r => participant_count r <> 0) items)
   then Ok tt else Raise ZeroDivisionError).
Proof.
  induction items as [|item items IH]; intros rows0 w; cbn [for_each map exported].
  - rewrite app_nil_r. by destruct (decide (Forall _ [])) as [|[]].
  - destruct (decide (participant_count item = 0)) as [E|E].
    + rewrite (csv_row_raise _ E). cbn [map]. rewrite app_nil_r.
      destruct (decide (Forall _ (item :: items))) as [F|F]; [by inversion F|done].
    + rewrite (csv_row_ok _ E). unfold bind at 1 2, ret at 1, writerow at 1.
      cbn [store written]. rewrite lookup_insert_eq.
      rewrite store_store, IH.
      rewrite <- app_assoc. simpl. f_equal.
      destruct (decide (Forall _ items)) as [F|F].
      * by rewrite decide_True by by constructor.
      * rewrite decide_False; [done|]. intros H. by inversion H.
Qed.

(** The whole export: the file holds the header and the rows of the
    sorted records up to the first zero participant count; the
    confirmation is printed only when every row was written. *)
Lemma generate_csv_report_run data path w :
  generate_csv_report data path w =
  let w' := store path
              (CsvFile (csv_header :: map csv_cells (exported (sorted by_participants data)))) w in
  if decide (Forall (fun r => participant_count r <> 0) data)
  then (emit ["✓ Detailed CSV report saved to: " +:+ path] w', Ok tt)
  else (w', Raise ZeroDivisionError).
Proof.
  unfold generate_csv_report, bind at 1 2, open_w, writerow at 1.
  cbn [store written]. rewrite lookup_insert_eq, store_store.
  unfold bind at 1. rewrite csv_loop. cbn [app].
  destruct (decide (Forall _ (sorted _ _))) as [F|F].
  - rewrite decide_True; [done|]. by rewrite <- (sorted_Permutation by_participants data).
  - rewrite decide_False; [done|]. by rewrite <- (sorted_Permutation by_participants data).
Qed.

(** ** The Loader *)

Lemma load_each_run files : forall results w,
  load_each results files w =
  (w, match parse_all files with
      | Ok rs => Ok (results ++ rs)
      | Raise e => Raise e
      end).
Proof.
  induction files as [|[n [|r]] files IH]; intros results w; simpl.
  - by rewrite app_nil_r.
  - reflexivity.
  - unfold bind, ret at 1. simpl. rewrite IH.
    destruct (parse_all files); [|done]. by rewrite <- app_assoc.
Qed.

Lemma load_benchmark_data_run dir w :
  load_benchmark_data dir w = (w, load_result (disk w !! dir)).
Proof.
  unfold load_benchmark_data, bind, stat_summary, load_result, run_files.
  destruct (disk w !! dir) as [d|] eqn:E.
  - destruct (summary_file d) as [[|rs]|]; try reflexivity.
    unfold glob. rewrite E, load_each_run. by destruct (parse_all _).
  - unfold glob. rewrite E. reflexivity.
Qed.

Lemma parse_all_documents (files : list (string * file_content BenchmarkRecord)) rs :
  map snd files = map Document rs -> parse_all files = Ok rs.
Proof.
  revert rs. induction files as [|[n f] files IH]; intros [|r rs] H; simpl in *; try done.
  injection H as -> H. by rewrite (IH rs).
Qed.

Lemma parse_all_malformed (files : list (string * file_content BenchmarkRecord)) n :
  In (n, Malformed) files -> parse_all files = Raise JSONDecodeError.
Proof.
  induction files as [|[m [|r]] files IH]; simpl; [done|done|].
  intros [H|H]; [done|]. by rewrite IH.
Qed.

(** *** The file-name pattern *)

Lemma fnmatch_literal p pat name :
  p <> "*"%char ->
  fnmatch (p :: pat) name =
  match name with
  | [] => false
  | c :: name' => (Ascii.eqb p c && fnmatch pat name')%bool
  end.
Proof. intros H. simpl. apply Ascii.eqb_neq in H. by rewrite H. Qed.

Lemma fnmatch_star pat name :
  fnmatch ("*"%char :: pat) name = true <->
  exists a b, name = a ++ b /\ fnmatch pat b = true.
Proof.
  cbn [fnmatch]. rewrite Ascii.eqb_refl.
  induction name as [|c name IH].
  - split.
    + intros H. exists [], []. split; [done|]. by rewrite orb_false_r in H.
    + intros (a & b & Hab & Hb). symmetry in Hab. apply app_eq_nil in Hab as [-> ->].
      by rewrite Hb.
  - split.
    + intros H. apply orb_true_iff in H as [H|H].
      * by exists [], (c :: name).
      * apply IH in H as (a & b & -> & Hb). by exists (c :: a), b.
    + intros (a & b & Hab & Hb). apply orb_true_iff.
      destruct a as [|c' a]; simpl in Hab.
      * left. by subst.
      * right. injection Hab as -> ->. apply IH. by exists a, b.
Qed.

Lemma fnmatch_exact pat name :
  Forall (fun p => p <> "*"%char) pat -> fnmatch pat name = true <-> name = pat.
Proof.
  intros H. revert name. induction H as [|p pat Hp _ IH]; intros name.
  - simpl. destruct name; split; done.
  - rewrite fnmatch_literal by done. destruct name as [|c name]; [split; done|].
    rewrite andb_true_iff, Ascii.eqb_eq, IH. split; [by intros [-> ->]|by intros [= -> ->]].
Qed.

Lemma fnmatch_prefix pre pat name :
  Forall (fun p => p <> "*"%char) pre ->
  fnmatch (pre ++ pat) name = true <->
  exists name', name = pre ++ name' /\ fnmatch pat name' = true.
Proof.
  intros H. revert name. induction H as [|p pre Hp _ IH]; intros name.
  - simpl. split; [by exists name|by intros (? & -> & ?)].
  - cbn [app]. rewrite fnmatch_literal by done. destruct name as [|c name].
    + split; [done|by intros (? & ? & _)].
    + rewrite andb_true_iff, Ascii.eqb_eq, IH. split.
      * intros [-> (name' & -> & H)]. by exists name'.
      * intros (name' & [= -> ->] & H). split; [done|by exists name'].
Qed.

Lemma list_ascii_of_string_app s t :
  list_ascii_of_string (s +:+ t) = list_ascii_of_string s ++ list_ascii_of_string t.
Proof. induction s as [|c s IH]; simpl; [done|]. by rewrite IH. Qed.

(** A name matches [benchmark_N*.json] exactly when it starts with
    [benchmark_N] and goes on to end in [.json]. *)
Lemma glob_match_benchmark name :
  glob_match "benchmark_N*.json" name = true <->
  exists mid, name = "benchmark_N" +:+ mid +:+ ".json".
Proof.
  unfold glob_match.
  change (list_ascii_of_string "benchmark_N*.json")
    with (list_ascii_of_string "benchmark_N" ++ "*"%char :: list_ascii_of_string ".json").
  rewrite fnmatch_prefix by (repeat constructor; discriminate).
  split.
  - intros (name' & Hn & H). apply fnmatch_star in H as (a & b & -> & Hb).
    apply fnmatch_exact in Hb; [|repeat constructor; discriminate]. subst b.
    exists (string_of_list_ascii a).
    rewrite <- (string_of_list_ascii_of_string name), Hn.
    rewrite <- (list_ascii_of_string_of_list_ascii a) at 1.
    rewrite <- !list_ascii_of_string_app. by rewrite string_of_list_ascii_of_string.
  - intros (mid & ->). exists (list_ascii_of_string (mid +:+ ".json")). split.
    + by rewrite list_ascii_of_string_app.
    + apply fnmatch_star. exists (list_ascii_of_string mid), (list_ascii_of_string ".json").
      split; [by rewrite list_ascii_of_string_app|].
      apply fnmatch_exact; [repeat constructor; discriminate|done].
Qed.

Lemma by_name_total {A} (x y : string * A) : by_name x y = false -> by_name y x = true.
Proof.
  unfold by_name. intros H.
  destruct (String.leb_total (fst x) (fst y)) as [E|E]; [congruence|done].
Qed.

(** The per-run files are in file-name order, each name once, and they are
    exactly the entries whose name matches the pattern. *)
Lemma run_files_spec d :
  Sorted (fun x y => String.leb (fst x) (fst y) = true) (run_files d) /\
  NoDup (map fst (run_files d)) /\
  forall n f, In (n, f) (run_files d) <->
              entries d !! n = Some f /\ glob_match "benchmark_N*.json" n = true.
Proof.
  unfold run_files. split; [|split].
  - apply (sorted_Sorted by_name). apply by_name_total.
  - rewrite (sorted_Permutation by_name).
    eapply sublist_NoDup; [apply (NoDup_fst_map_to_list (entries d))|].
    apply fmap_sublist, sublist_filter.
  - intros n f. rewrite <- list_elem_of_In, (sorted_Permutation by_name).
    rewrite list_elem_of_filter, elem_of_map_to_list. simpl. tauto.
Qed.

(** ** The Chart Renderer *)

Lemma generate_plot_unavailable data dir w :
  matplotlib w = false ->
  generate_plot data dir w =
  (emit ["Note: matplotlib not available, skipping plot generation";
         "      Install with: pip install matplotlib"] w, Ok tt).
Proof.
  intros H. unfold generate_plot, bind at 1, import_matplotlib. rewrite H.
  unfold bind, print. by rewrite emit_emit.
Qed.

Lemma generate_plot_ok data dir w : snd (generate_plot data dir w) = Ok tt.
Proof.
  unfold generate_plot, bind at 1, import_matplotlib.
  by destruct (matplotlib w).
Qed.

(** ** The Driver *)

(** One run of [main], step by step: where it stops and what it leaves. *)
Lemma main_run log argv w :
  main log argv w =
  let dir := argv_results_dir argv in
  match disk w !! dir with
  | None =>
      (emit ["Error: Results directory not found: " +:+ dir;
             nl +:+ "Usage: " +:+ nth 0 argv "" +:+ " [results_dir]"] w,
       Raise (SystemExit 1))
  | Some d =>
      let w1 := emit ["Loading benchmark data from: " +:+ dir] w in
      match load_result (Some d) with
      | Raise e => (w1, Raise e)
      | Ok [] => (emit ["Error: No benchmark data found"] w1, Raise (SystemExit 1))
      | Ok data =>
          let w2 := emit (("Loaded " +:+ str (len data) +:+ " benchmark results")
                          :: printed (print_statistics log data)) w1 in
          match outcome (print_statistics log data) with
          | Raise e => (w2, Raise e)
          | Ok _ =>
              match generate_csv_report data (os_path_join dir "detailed_analysis.csv") w2 with
              | (w3, Raise e) => (w3, Raise e)
              | (w3, Ok _) =>
                  (emit completion_banner (fst (generate_plot data dir w3)), Ok tt)
              end
          end
      end
  end.
Proof.
  unfold main. cbv zeta. set (dir := argv_results_dir argv).
  unfold bind at 1, os_path_exists.
  destruct (disk w !! dir) as [d|] eqn:E.
  - rewrite bool_decide_eq_true_2 by eauto. cbn [negb].
    unfold bind at 1, ret at 1. unfold bind at 1, print at 1.
    unfold bind at 1. rewrite load_benchmark_data_run.
    cbn [disk emit]. rewrite E.
    destruct (load_result (Some d)) as [[|d0 rest]|e]; [| |done].
    + unfold bind, print, sys_exit, raise. reflexivity.
    + unfold bind at 1, ret at 1. unfold bind at 1, print at 1.
      unfold bind at 1.
      rewrite (writer_print_statistics log (d0 :: rest)).
      rewrite !emit_emit. cbn [app].
      destruct (outcome (print_statistics log (d0 :: rest))) as [[]|e]; [|done].
      unfold bind at 1.
      destruct (generate_csv_report _ _ _) as [w3 [[]|e]]; [|done].
      unfold bind at 1.
      pose proof (generate_plot_ok (d0 :: rest) dir w3) as Hp.
      destruct (generate_plot (d0 :: rest) dir w3) as [w4 r]. simpl in Hp. subst r.
      unfold bind, print. rewrite !emit_emit. reflexivity.
  - rewrite bool_decide_eq_false_2 by (by intros [? ?]). cbn [negb].
    unfold bind, print, sys_exit, raise. rewrite emit_emit. reflexivity.
Qed.

(** ** Which exceptions a writer can raise *)

Lemma outcome_bind_ok {A B} (c : Py A) (k : A -> Py B) b :
  writer c -> (forall a, writer (k a)) ->
  outcome (bind c k) = Ok b -> exists a, outcome c = Ok a /\ outcome (k a) = Ok b.
Proof.
  intros Hc Hk. rewrite outcome_bind by done.
  destruct (outcome c) as [a|e]; [|done]. by exists a.
Qed.

Lemma raises_bind {A B} P (c : Py A) (k : A -> Py B) :
  writer c -> (forall a, writer (k a)) ->
  raises_only P c -> (forall a, raises_only P (k a)) -> raises_only P (bind c k).
Proof.
  intros Hc Hk Rc Rk e. rewrite outcome_bind by done.
  destruct (outcome c) as [a|e'] eqn:E.
  - apply Rk.
  - intros [= ->]. by apply Rc.
Qed.

Lemma raises_ret {A} P (a : A) : raises_only P (ret a).
Proof. by intros e. Qed.

Lemma raises_print P s : raises_only P (print s).
Proof. by intros e. Qed.

Lemma raises_raise {A} (P : exn -> Prop) e : P e -> raises_only P (@raise A e).
Proof. intros H e'. by intros [= <-]. Qed.

Lemma raises_if {A} P (b : bool) (c1 c2 : Py A) :
  raises_only P c1 -> raises_only P c2 -> raises_only P (if b then c1 else c2).
Proof. by destruct b. Qed.

Lemma raises_py_div a b : raises_only arith_error (py_div a b).
Proof. unfold py_div. apply raises_if; [apply raises_raise; by left|apply raises_ret]. Qed.

Lemma raises_math_log log x : raises_only arith_error (math_log log x).
Proof. unfold math_log. apply raises_if; [apply raises_raise; by right|apply raises_ret]. Qed.

Lemma raises_for_each {A} P (body : A -> Py unit) l :
  (forall x, writer (body x)) -> (forall x, raises_only P (body x)) ->
  raises_only P (for_each l body).
Proof.
  intros Hw Hb. induction l as [|x l IH]; simpl.
  - apply raises_ret.
  - apply raises_bind; auto using writer_for_each.
Qed.

Lemma raises_py_sum {A} P (f : A -> Py Q) l :
  (forall d, writer (f d)) -> (forall d, raises_only P (f d)) ->
  raises_only P (py_sum f l).
Proof.
  intros Hw Hf. unfold py_sum. generalize 0%Q.
  induction l as [|d l IH]; intros acc; simpl.
  - apply raises_ret.
  - apply raises_bind; auto using writer_py_sum_from.
Qed.

Ltac raises :=
  repeat first
    [ match goal with |- forall _, _ => intro end
    | apply raises_ret | apply raises_print | apply raises_py_div | apply raises_math_log
    | apply raises_for_each; [solve [writer] | ]
    | apply raises_py_sum; [solve [writer] | ]
    | apply raises_bind; [solve [writer] | solve [writer] | | ]
    | apply raises_if
    | progress cbv beta zeta ].

(** Whatever stops the Reporter is a division by zero or a domain error of
    the logarithm. *)
Lemma print_statistics_raises log data :
  raises_only arith_error (print_statistics log data).
Proof.
  unfold print_statistics. destruct data as [|d0 rest]; [apply raises_print|].
  unfold print_overall, print_table, print_scaling, print_complexity,
    print_efficiency, overhead_unguarded.
  raises.
Qed.

(** ** What a completed report implies *)

Lemma py_div_ok a z v : outcome (py_div a (float z)) = Ok v -> z <> 0.
Proof. intros H ->. by rewrite py_div_zero in H. Qed.

Lemma py_sum_from_ok {A} (f : A -> Py Q) l :
  (forall d, writer (f d)) ->
  forall acc v, outcome (py_sum_from acc f l) = Ok v ->
                Forall (fun d => exists x, outcome (f d) = Ok x) l.
Proof.
  intros Hf. induction l as [|d l IH]; intros acc v H; [constructor|].
  simpl in H. apply outcome_bind_ok in H as (x & Hx & H);
    [|done|intros; by apply writer_py_sum_from].
  constructor; [by exists x|by eapply IH].
Qed.

Lemma overhead_unguarded_zero d :
  user_cycles d = 0 -> overhead_unguarded d = raise ZeroDivisionError.
Proof. intros H. unfold overhead_unguarded. by rewrite py_div_zero. Qed.

Lemma overhead_unguarded_nonzero d :
  user_cycles d <> 0 ->
  overhead_unguarded d =
  ret (float (total_cycles d - user_cycles d) / float (user_cycles d) * 100)%Q.
Proof. intros H. unfold overhead_unguarded. by rewrite py_div_nonzero. Qed.

(** The sum of line 115 stops at the first record without user cycles. *)
Lemma py_sum_overhead_raise data r :
  In r data -> user_cycles r = 0 ->
  forall acc, outcome (py_sum_from acc overhead_unguarded data) = Raise ZeroDivisionError.
Proof.
  intros Hin Hr. induction data as [|d data IH]; intros acc; [done|].
  cbn [py_sum_from]. destruct (decide (user_cycles d = 0)) as [E|E].
  - by rewrite overhead_unguarded_zero.
  - rewrite outcome_bind;
      [|writer|intros; apply writer_py_sum_from, writer_overhead_unguarded].
    rewrite overhead_unguarded_nonzero by done. cbn [outcome ret snd].
    apply IH. destruct Hin as [->|Hin]; [done|exact Hin].
Qed.

(** A report that completes divided by every participant count and by
    every user-cycle count. *)
Lemma print_efficiency_ok data :
  outcome (print_efficiency data) = Ok tt ->
  Forall (fun d => participant_count d <> 0) data /\
  Forall (fun d => user_cycles d <> 0) data.
Proof.
  pose proof writer_overhead_unguarded as Hw.
  unfold print_efficiency. intros H.
  apply outcome_bind_ok in H as (u1 & _ & H); [|writer..].
  apply outcome_bind_ok in H as (u2 & _ & H); [|writer..].
  apply outcome_bind_ok in H as (s1 & H1 & H); [|writer..].
  apply outcome_bind_ok in H as (a1 & _ & H); [|writer..].
  apply outcome_bind_ok in H as (s2 & _ & H); [|writer..].
  apply outcome_bind_ok in H as (a2 & _ & H); [|writer..].
  apply outcome_bind_ok in H as (s3 & _ & H); [|writer..].
  apply outcome_bind_ok in H as (a3 & _ & H); [|writer..].
  apply outcome_bind_ok in H as (s4 & H4 & _); [|writer..].
  split.
  - apply py_sum_from_ok in H1; [|writer].
    eapply Forall_impl; [exact H1|]. intros d [x Hx]. by eapply py_div_ok.
  - apply py_sum_from_ok in H4; [|writer].
    eapply Forall_impl; [exact H4|]. intros d [x Hx] E.
    by rewrite overhead_unguarded_zero in Hx.
Qed.

Lemma print_statistics_ok log data :
  data <> [] ->
  outcome (print_statistics log data) = Ok tt ->
  Forall (fun d => participant_count d <> 0) data /\
  Forall (fun d => user_cycles d <> 0) data.
Proof.
  destruct data as [|d0 rest]; [done|]. intros _.
  rewrite outcome_print_statistics.
  destruct (outcome (print_scaling d0 rest)); [|done].
  destruct (outcome (print_complexity log a)); [|done].
  apply print_efficiency_ok.
Qed.

Lemma Qeq_float_zero z : (float z == 0)%Q <-> z = 0.
Proof. unfold float, Qeq, inject_Z; simpl. lia. Qed.

(** ** The power-law section *)

Lemma Qgt_bool_true a b : Qgt_bool a b = true <-> (b < a)%Q.
Proof.
  unfold Qgt_bool. rewrite negb_true_iff. split.
  - intros H. apply Qnot_le_lt. intros Hle. apply Qle_bool_iff in Hle. congruence.
  - intros H. destruct (Qle_bool a b) eqn:E; [|done].
    apply Qle_bool_iff in E. exfalso. by apply (Qlt_not_le b a).
Qed.

Lemma Qgt_bool_false a b : Qgt_bool a b = false <-> (a <= b)%Q.
Proof. unfold Qgt_bool. by rewrite negb_false_iff, Qle_bool_iff. Qed.

Lemma math_log_positive log x : (0 < x)%Q -> math_log log x = ret (log x).
Proof.
  intros H. unfold math_log. destruct (Qle_bool x 0) eqn:E; [|done].
  apply Qle_bool_iff in E. exfalso. by apply (Qlt_not_le 0 x).
Qed.

Lemma math_log_domain log x : (x <= 0)%Q -> math_log log x = raise ValueError.
Proof. intros H. unfold math_log. apply Qle_bool_iff in H. by rewrite H. Qed.

Lemma py_div_Q a b : ~ (b == 0)%Q -> py_div a b = ret (a / b)%Q.
Proof.
  intros H. unfold py_div. destruct (Qeq_bool b 0) eqn:E; [|done].
  by apply Qeq_bool_iff in E.
Qed.

(** With a participant ratio of at most one the section is skipped and no
    logarithm is taken. *)
Lemma print_complexity_skip log r :
  (n_ratio r <= 1)%Q -> print_complexity log r = ret tt.
Proof. intros H. unfold print_complexity. apply Qgt_bool_false in H. by rewrite H. Qed.

(** With a ratio above one and positive metric ratios the section is
    printed, each exponent a quotient of logarithms. *)
Lemma print_complexity_run log r w :
  (1 < n_ratio r)%Q -> ~ (log (n_ratio r) == 0)%Q ->
  (0 < user_cycle_ratio r)%Q -> (0 < total_cycle_ratio r)%Q -> (0 < time_ratio r)%Q ->
  print_complexity log r w = (emit (complexity_lines log r) w, Ok tt).
Proof.
  intros Hn Hl Hu Ht Hm. unfold print_complexity.
  apply Qgt_bool_true in Hn as Hb. rewrite Hb.
  assert (0 < n_ratio r)%Q by (eapply Qlt_trans; [|exact Hn]; reflexivity).
  rewrite !math_log_positive by done.
  unfold bind at 1 2, ret at 1 2. rewrite py_div_Q by done.
  unfold bind at 1 2 3, ret at 1 2 3. rewrite py_div_Q by done.
  unfold bind at 1 2 3, ret at 1 2 3. rewrite py_div_Q by done.
  unfold bind, ret, print. by rewrite !emit_emit.
Qed.

(** With a ratio above one and a metric ratio that is not positive the
    logarithm raises before anything of the section is printed. *)
Lemma print_complexity_domain_error log r w :
  (1 < n_ratio r)%Q -> ~ (log (n_ratio r) == 0)%Q ->
  ~ ((0 < user_cycle_ratio r)%Q /\ (0 < total_cycle_ratio r)%Q /\ (0 < time_ratio r)%Q) ->
  print_complexity log r w = (w, Raise ValueError).
Proof.
  intros Hn Hl Hneg. unfold print_complexity.
  apply Qgt_bool_true in Hn as Hb. rewrite Hb.
  assert (0 < n_ratio r)%Q by (eapply Qlt_trans; [|exact Hn]; reflexivity).
  destruct (Qlt_le_dec 0 (user_cycle_ratio r)) as [Hu|Hu];
    [|by rewrite (math_log_domain _ _ Hu)].
  rewrite !(math_log_positive log (n_ratio r)) by done.
  rewrite (math_log_positive log _ Hu).
  unfold bind at 1 2, ret at 1 2. rewrite py_div_Q by done.
  unfold bind at 1, ret at 1.
  destruct (Qlt_le_dec 0 (total_cycle_ratio r)) as [Ht|Ht];
    [|by rewrite (math_log_domain _ _ Ht)].
  rewrite (math_log_positive log _ Ht).
  unfold bind at 1 2, ret at 1 2. rewrite py_div_Q by done.
  unfold bind at 1, ret at 1.
  destruct (Qlt_le_dec 0 (time_ratio r)) as [Hm|Hm];
    [|by rewrite (math_log_domain _ _ Hm)].
  tauto.
Qed.

(** ** Exit status *)

Lemma run_script_status log argv w :
  snd (run_script log argv w) = expected_status log (disk w !! argv_results_dir argv).
Proof.
  unfold run_script, expected_status. rewrite main_run. cbv zeta.
  destruct (disk w !! argv_results_dir argv) as [d|]; [|done].
  destruct (load_result (Some d)) as [[|d0 rest]|e]; [done| |done].
  destruct (outcome (print_statistics log (d0 :: rest))) as [[]|e]; [|done].
  rewrite generate_csv_report_run. cbv zeta.
  by destruct (decide (Forall _ (d0 :: rest))).
Qed.

Lemma parse_all_raises files e : parse_all files = Raise e -> e = JSONDecodeError.
Proof.
  induction files as [|[n [|r]] files IH]; simpl; [done|by intros [= <-]|].
  destruct (parse_all files); [done|]. intros [= <-]. by apply IH.
Qed.

Lemma load_result_raises od e : load_result od = Raise e -> e = JSONDecodeError.
Proof.
  destruct od as [d|]; simpl; [|done].
  destruct (summary_file d) as [[|rs]|]; [by intros [= <-]|done|apply parse_all_raises].
Qed.

(** ** The end-to-end scenario *)

Lemma log_sign_nonzero x : (1 < x)%Q -> ~ (log_sign x == 0)%Q.
Proof.
  intros Hx E. unfold log_sign in E. apply (Qlt_irrefl 1).
  rewrite <- (Qplus_0_l 1) at 2. rewrite <- E. by ring_simplify.
Qed.

(** The report of the scenario, whatever [math.log] returns above one. *)
Lemma scenario_report log :
  (forall x, (1 < x)%Q -> ~ (log x == 0)%Q) ->
  printed (print_statistics log [scenario_n1; scenario_n10]) =
    printed (print_overall scenario_n1 [scenario_n10]) ++
    printed (print_table [scenario_n1; scenario_n10]) ++
    printed (print_scaling scenario_n1 [scenario_n10]) ++
    complexity_lines log (scaling_ratios scenario_n1 scenario_n10) ++
    printed (print_efficiency [scenario_n1; scenario_n10]) /\
  outcome (print_statistics log [scenario_n1; scenario_n10]) = Ok tt.
Proof.
  intros Hlog.
  assert (Hs : outcome (print_scaling scenario_n1 [scenario_n10]) =
               Ok (scaling_ratios scenario_n1 scenario_n10)) by reflexivity.
  assert (Hc : forall w, print_complexity log (scaling_ratios scenario_n1 scenario_n10) w =
                         (emit (complexity_lines log (scaling_ratios scenario_n1 scenario_n10)) w,
                          Ok tt)).
  { intros w. apply print_complexity_run; try reflexivity. apply Hlog. reflexivity. }
  destruct (writer_of _ _ _ Hc) as (_ & Hcp & Hco).
  rewrite printed_print_statistics, outcome_print_statistics, Hs, Hco, Hcp.
  split; reflexivity.
Qed.

(** ** What the Chart Renderer changes *)

Lemma generate_plot_available data dir w :
  matplotlib w = true ->
  exists p,
    generate_plot data dir w =
    (emit ["✓ Plots saved to: " +:+ os_path_join dir "benchmark_plots.png"]
       (store (os_path_join dir "benchmark_plots.png") (PngFile p) w), Ok tt).
Proof.
  intros H. unfold generate_plot, bind at 1, import_matplotlib. rewrite H.
  eexists. reflexivity.
Qed.

(** The Chart Renderer only adds lines to the output, and touches no file
    but [benchmark_plots.png]. *)
Lemma generate_plot_effect data dir w :
  (exists lines, stdout (fst (generate_plot data dir w)) = stdout w ++ lines) /\
  forall path, path <> os_path_join dir "benchmark_plots.png" ->
               written (fst (generate_plot data dir w)) !! path = written w !! path.
Proof.
  destruct (matplotlib w) eqn:E.
  - destruct (generate_plot_available data dir w E) as [p ->].
    cbn [fst stdout written emit store]. split.
    + by eexists.
    + intros path Hp. by rewrite lookup_insert_ne.
  - rewrite generate_plot_unavailable by done. cbn [fst stdout written emit].
    split; [by eexists|done].
Qed.

Ltac pick_line := vm_compute; repeat first [left; reflexivity | right].

(** * The claims *)

(** C1: for a results directory, the loader first looks for
    [benchmark_summary.json] and, when it exists, returns its parsed
    contents (a parse failure is fatal); only when it is absent does it
    parse the files matching [benchmark_N*.json], each once, in file-name
    order, collecting their records in that order; when neither source
    exists it returns the empty list.  The world is left as it was. *)
Theorem loader_source_selection w dir d :
  disk w !! dir = Some d ->
  (forall rs, summary_file d = Some (Document rs) ->
              load_benchmark_data dir w = (w, Ok rs)) /\
  (summary_file d = Some Malformed ->
   load_benchmark_data dir w = (w, Raise JSONDecodeError)) /\
  (summary_file d = None ->
   exists files,
     Sorted (fun x y => String.leb (fst x) (fst y) = true) files /\
     NoDup (map fst files) /\
     (forall n f, In (n, f) files <->
                  entries d !! n = Some f /\
                  exists mid, n = "benchmark_N" +:+ mid +:+ ".json") /\
     (forall rs, map snd files = map Document rs ->
                 load_benchmark_data dir w = (w, Ok rs)) /\
     (forall n, In (n, Malformed) files ->
                load_benchmark_data dir w = (w, Raise JSONDecodeError))) /\
  (summary_file d = None ->
   (forall n mid, n = "benchmark_N" +:+ mid +:+ ".json" -> entries d !! n = None) ->
   load_benchmark_data dir w = (w, Ok [])).
Proof.
  intros Hd. rewrite load_benchmark_data_run, Hd. unfold load_result.
  destruct (run_files_spec d) as (Hsorted & Hnodup & Hin).
  split; [|split; [|split]].
  - by intros rs ->.
  - by intros ->.
  - intros ->. exists (run_files d).
    split; [done|]. split; [done|]. split; [|split].
    + intros n f. by rewrite Hin, glob_match_benchmark.
    + intros rs Hrs. by rewrite (parse_all_documents _ rs).
    + intros n Hn. by rewrite (parse_all_malformed _ n).
  - intros -> Hnone.
    destruct (run_files d) as [|[n f] files]; [done|]. exfalso.
    destruct (Hin n f) as [H _]. destruct H as [Hf Hm]; [by left|].
    apply glob_match_benchmark in Hm as [mid Hm].
    by rewrite (Hnone n mid Hm) in Hf.
Qed.

(** An instance: the summary is returned although a per-run file that
    would not parse sits next to it. *)
Lemma loader_source_selection_witness :
  load_benchmark_data "res" (world_with "res" summary_and_broken_run_dir true) =
  (world_with "res" summary_and_broken_run_dir true, Ok [scenario_n1; scenario_n10]).
Proof.
  destruct (loader_source_selection (world_with "res" summary_and_broken_run_dir true)
              "res" summary_and_broken_run_dir) as (H & _).
  - reflexivity.
  - apply H. reflexivity.
Defined.

(** The fallback on a directory without a summary file: the two matching
    files, in file-name order. *)
Example loader_fallback_example :
  snd (load_benchmark_data "res" (world_with "res" per_run_dir true)) =
  Ok [scenario_n1; scenario_n10].
Proof. vm_compute. reflexivity. Qed.

(** C2 (as stated, refuted): the driver does not exit with status 0 in
    every case other than a missing directory or an empty load.  The
    directory exists and the loader yields one record of the data model,
    but the record has no user cycles, the Reporter raises
    [ZeroDivisionError], and the uncaught exception ends the process with
    status 1. *)
Lemma driver_exit_status_after_exception :
  well_formed idle_n1 /\
  is_Some (disk (world_with "res" idle_dir true) !! "res") /\
  load_benchmark_data "res" (world_with "res" idle_dir true) =
    (world_with "res" idle_dir true, Ok [idle_n1]) /\
  forall log,
    outcome (print_statistics log [idle_n1]) = Raise ZeroDivisionError /\
    snd (run_script log ["analyze_benchmarks.py"; "res"] (world_with "res" idle_dir true)) = 1.
Proof.
  split; [unfold well_formed; simpl; lia|].
  split; [by eexists|]. split; [reflexivity|].
  intros log. split; [reflexivity|].
  rewrite run_script_status. reflexivity.
Qed.

(** What [main] raises decides the exit status: 0 on fall-through, 1 after
    any exception. *)
Lemma main_exit_status log argv w :
  (snd (run_script log argv w) = 0 <-> snd (main log argv w) = Ok tt) /\
  (forall e, snd (main log argv w) = Raise e -> snd (run_script log argv w) = 1).
Proof.
  unfold run_script. rewrite main_run. cbv zeta.
  destruct (disk w !! argv_results_dir argv) as [d|]; [|by split; [split|intros ? [= <-]]].
  destruct (load_result (Some d)) as [[|d0 rest]|e] eqn:El.
  - by split; [split|intros ? [= <-]].
  - destruct (outcome (print_statistics log (d0 :: rest))) as [[]|e] eqn:E.
    + rewrite generate_csv_report_run. cbv zeta.
      destruct (decide (Forall _ (d0 :: rest))); by split; [split|intros ? [= <-]].
    + apply (print_statistics_raises log (d0 :: rest)) in E as [-> | ->];
        by split; [split|intros ? [= <-]].
  - apply load_result_raises in El as ->. by split; [split|intros ? [= <-]].
Qed.

(** C2 (amended): the driver exits with status 1 and a usage message when
    the results directory does not exist, and with status 1 after printing
    "Error: No benchmark data found" when the directory exists but the
    loader yields no record.  In every other case the exit status is 0
    exactly when [main] falls through, that is when no exception is
    raised: an exception raised while loading, reporting or exporting is
    not caught and ends the process with status 1.  In particular a
    Reporter that raises on the loaded records gives status 1, and status
    0 is only reached after the Reporter has completed. *)
Theorem driver_exit_status log argv w dir :
  dir = argv_results_dir argv ->
  (disk w !! dir = None ->
   run_script log argv w =
   (emit ["Error: Results directory not found: " +:+ dir;
          nl +:+ "Usage: " +:+ nth 0 argv "" +:+ " [results_dir]"] w, 1)) /\
  (is_Some (disk w !! dir) -> snd (load_benchmark_data dir w) = Ok [] ->
   run_script log argv w =
   (emit ["Loading benchmark data from: " +:+ dir; "Error: No benchmark data found"] w, 1)) /\
  (is_Some (disk w !! dir) ->
   forall e, snd (load_benchmark_data dir w) = Raise e -> snd (run_script log argv w) = 1) /\
  (is_Some (disk w !! dir) ->
   forall data, snd (load_benchmark_data dir w) = Ok data -> data <> [] ->
     (forall e, outcome (print_statistics log data) = Raise e ->
                snd (run_script log argv w) = 1) /\
     (snd (run_script log argv w) = 0 -> outcome (print_statistics log data) = Ok tt)) /\
  (snd (run_script log argv w) = 0 <-> snd (main log argv w) = Ok tt) /\
  (forall e, snd (main log argv w) = Raise e -> snd (run_script log argv w) = 1).
Proof.
  intros ->. rewrite load_benchmark_data_run. cbn [snd].
  split; [|split; [|split; [|split]]]; [| | | |apply main_exit_status].
  - intros Hd. unfold run_script. rewrite main_run. cbv zeta. by rewrite Hd.
  - intros [d Hd] Hl. unfold run_script. rewrite main_run. cbv zeta.
    rewrite Hd in *. rewrite Hl. by rewrite emit_emit.
  - intros [d Hd] e Hl. rewrite run_script_status, Hd. unfold expected_status.
    rewrite Hd in Hl. rewrite Hl. by rewrite (load_result_raises _ _ Hl).
  - intros [d Hd] data Hl Hne. rewrite run_script_status, Hd. unfold expected_status.
    rewrite Hd in Hl. rewrite Hl. destruct data as [|d0 rest]; [done|].
    destruct (outcome (print_statistics log (d0 :: rest))) as [[]|e] eqn:E.
    + apply print_statistics_ok in E as [Hp _]; [|done].
      rewrite decide_True by done. done.
    + apply (print_statistics_raises log (d0 :: rest)) in E as [-> | ->];
        (split; [done|]); cbn [exit_status]; lia.
Qed.

(** An instance: a directory that does not exist. *)
Lemma driver_exit_status_witness :
  run_script log_sign ["analyze_benchmarks.py"; "missing"] blank =
  (emit ["Error: Results directory not found: missing";
         nl +:+ "Usage: analyze_benchmarks.py [results_dir]"] blank, 1).
Proof.
  destruct (driver_exit_status log_sign ["analyze_benchmarks.py"; "missing"] blank "missing")
    as (H & _).
  - reflexivity.
  - apply H. reflexivity.
Defined.

(** C3: for a record with [user_cycles == 0] the CSV Exporter puts
    exactly the integer 0 in the Overhead % cell (the division is
    guarded), while the Reporter's average overhead divides without a
    guard: its sum raises [ZeroDivisionError], and the Reporter fails on
    every input that contains such a record.  In the file that
    [generate_csv_report] writes, every data row whose User Cycles cell is
    the integer 0 has the integer 0 in its Overhead % cell, and when the
    export completes the row of that record is one of them. *)
Theorem overhead_guard_asymmetry log data r path w :
  In r data -> user_cycles r = 0 ->
  csv_overhead r = ret (VInt 0) /\
  (participant_count r <> 0 ->
   exists row, csv_row r = ret row /\ row !! 10%nat = Some (VInt 0)) /\
  (exists rows,
     written (fst (generate_csv_report data path w)) !! path =
       Some (CsvFile (csv_header :: rows)) /\
     Forall (fun row => row !! 1%nat = Some (VInt 0) -> row !! 10%nat = Some (VInt 0)) rows /\
     (Forall (fun d => participant_count d <> 0) data ->
      snd (generate_csv_report data path w) = Ok tt /\
      In (csv_cells r) rows /\
      csv_cells r !! 1%nat = Some (VInt 0) /\
      csv_cells r !! 10%nat = Some (VInt 0))) /\
  outcome (py_sum overhead_unguarded data) = Raise ZeroDivisionError /\
  exists e, arith_error e /\ forall w, snd (print_statistics log data w) = Raise e.
Proof.
  intros Hin Hr.
  assert (Hcell : forall d, user_cycles d = 0 -> csv_cells d !! 10%nat = Some (VInt 0)).
  { intros d Hd. unfold csv_cells, overhead_value. by rewrite Hd. }
  split; [|split; [|split; [|split]]].
  - unfold csv_overhead. by rewrite Hr.
  - intros Hn. exists (csv_cells r). split; [by apply csv_row_ok|]. by apply Hcell.
  - exists (map csv_cells (exported (sorted by_participants data))).
    rewrite generate_csv_report_run. cbv zeta.
    split; [|split].
    + destruct (decide (Forall _ data)); cbn [fst emit store written];
        apply lookup_insert_eq.
    + apply Forall_map, Forall_forall. intros d _ Hd. apply Hcell.
      cbn in Hd. by injection Hd.
    + intros Hn. rewrite decide_True by done. split; [done|].
      rewrite exported_all
        by (by rewrite (sorted_Permutation by_participants data)).
      split; [|split].
      * apply in_map. apply list_elem_of_In.
        rewrite (sorted_Permutation by_participants data). by apply list_elem_of_In.
      * cbn. by rewrite Hr.
      * by apply Hcell.
  - by apply (py_sum_overhead_raise data r).
  - destruct (outcome (print_statistics log data)) as [[]|e] eqn:E.
    + apply print_statistics_ok in E as [_ Hu]; [|by destruct data].
      rewrite Forall_forall in Hu. destruct (Hu r); [by apply list_elem_of_In|done].
    + exists e. split; [by apply (print_statistics_raises log data)|].
      intros w'. by rewrite (writer_print_statistics log data w').
Qed.

(** An instance: ten participants and no user cycles next to the
    scenario's first record; the exported file holds a row for it. *)
Lemma overhead_guard_asymmetry_witness :
  csv_overhead idle_n10 = ret (VInt 0) /\
  (exists rows,
     written (fst (generate_csv_report [scenario_n1; idle_n10] "out.csv" blank)) !! "out.csv" =
       Some (CsvFile (csv_header :: rows)) /\
     In (csv_cells idle_n10) rows /\
     csv_cells idle_n10 !! 10%nat = Some (VInt 0)) /\
  (exists e, arith_error e /\
     forall w, snd (print_statistics log_sign [scenario_n1; idle_n10] w) = Raise e).
Proof.
  destruct (overhead_guard_asymmetry log_sign [scenario_n1; idle_n10] idle_n10
              "out.csv" blank)
    as (H1 & _ & (rows & Hf & _ & Hr) & _ & H4).
  - right. left. reflexivity.
  - reflexivity.
  - split; [exact H1|]. split; [|exact H4].
    exists rows. split; [exact Hf|].
    destruct Hr as (_ & Hin & _ & Hc).
    + repeat constructor; discriminate.
    + split; [exact Hin|exact Hc].
Defined.

(** C4: for every record list of the data model (participant counts are
    positive; non-zero is all that is used) the CSV file holds the header
    row and one data row per input record, and in each data row the User
    Cycles/Participant cell is the quotient of that record's user cycles by
    its participant count, so reading the file back recovers the row count
    and the quotient. *)
Theorem csv_round_trip data path w :
  Forall (fun r => participant_count r <> 0) data ->
  exists rows,
    generate_csv_report data path w =
      (emit ["✓ Detailed CSV report saved to: " +:+ path]
         (store path (CsvFile (csv_header :: rows)) w), Ok tt) /\
    length rows = length data /\
    Permutation (sorted by_participants data) data /\
    Forall2 (fun item row =>
               row !! 0%nat = Some (VInt (participant_count item)) /\
               row !! 1%nat = Some (VInt (user_cycles item)) /\
               exists q, row !! 8%nat = Some (VFloat q) /\
                         (q == float (user_cycles item) / float (participant_count item))%Q /\
                         (q * float (participant_count item) == float (user_cycles item))%Q)
            (sorted by_participants data) rows.
Proof.
  intros H. exists (map csv_cells (sorted by_participants data)).
  assert (Hs : Forall (fun r => participant_count r <> 0) (sorted by_participants data))
    by (by rewrite (sorted_Permutation by_participants data)).
  split; [|split; [|split]].
  - rewrite generate_csv_report_run. cbv zeta.
    rewrite decide_True by done. by rewrite exported_all.
  - by rewrite length_map, sorted_length.
  - apply sorted_Permutation.
  - apply Forall2_fmap_r, Forall_Forall2_diag.
    eapply Forall_impl; [exact Hs|]. intros item Hn. cbv beta.
    split; [done|]. split; [done|].
    eexists. split; [reflexivity|]. split; [reflexivity|].
    field. by rewrite Qeq_float_zero.
Qed.

(** An instance: the two records of the scenario, given in descending
    order. *)
Lemma csv_round_trip_witness :
  exists rows,
    generate_csv_report [scenario_n10; scenario_n1] "out.csv" blank =
      (emit ["✓ Detailed CSV report saved to: out.csv"]
         (store "out.csv" (CsvFile (csv_header :: rows)) blank), Ok tt) /\
    length rows = 2%nat.
Proof.
  destruct (csv_round_trip [scenario_n10; scenario_n1] "out.csv" blank)
    as (rows & H1 & H2 & _).
  - repeat constructor; discriminate.
  - exists rows. split; [exact H1|exact H2].
Defined.

(** C5 (as stated, refuted): a participant ratio above one does not by
    itself make the Reporter print the power-law section.  With one
    participant at 1000 user cycles and ten participants at zero user
    cycles (both records within the data model) the ratio is 10, the
    user-cycle ratio is 0, and [math.log] raises [ValueError] before the
    section is printed. *)
Lemma complexity_section_missing_despite_ratio :
  well_formed scenario_n1 /\ well_formed idle_n10 /\
  min_by participant_count scenario_n1 [idle_n10] = scenario_n1 /\
  max_by participant_count scenario_n1 [idle_n10] = idle_n10 /\
  (1 < n_ratio (scaling_ratios scenario_n1 idle_n10))%Q /\
  forall log,
    ~ In "Estimated Computational Complexity:"
         (printed (print_statistics log [scenario_n1; idle_n10])) /\
    outcome (print_statistics log [scenario_n1; idle_n10]) = Raise ValueError.
Proof.
  split; [unfold well_formed; simpl; lia|].
  split; [unfold well_formed; simpl; lia|].
  split; [reflexivity|]. split; [reflexivity|]. split; [reflexivity|].
  intros log. split.
  - vm_compute. intros H.
    repeat (destruct H as [H|H]; [discriminate H|]). exact H.
  - vm_compute. reflexivity.
Qed.

(** C5 (amended): once the scaling comparison has completed with ratios
    [r], the Reporter prints the power-law section, with exponents
    [log(ratio_metric) / log(ratio_participants)] for user cycles, total
    cycles and time, if and only if the participant ratio is strictly
    greater than one and those three metric ratios are positive.  With a
    ratio of at most one (in particular when the maximum and minimum
    participant counts coincide) the section is skipped and no logarithm
    is evaluated, so the logarithm of one is never a divisor; with a ratio
    above one and a metric ratio that is not positive the logarithm raises
    [ValueError] and nothing of the section is printed. *)
Theorem complexity_section_guard log d0 rest first last r :
  first = min_by participant_count d0 rest ->
  last = max_by participant_count d0 rest ->
  r = scaling_ratios first last ->
  Forall (fun z => z <> 0) (scaling_divisors first) ->
  (forall x, (1 < x)%Q -> ~ (log x == 0)%Q) ->
  (exists tail,
     printed (print_statistics log (d0 :: rest)) =
     printed (print_overall d0 rest) ++ printed (print_table (d0 :: rest)) ++
     printed (print_scaling d0 rest) ++ printed (print_complexity log r) ++ tail) /\
  ((n_ratio r <= 1)%Q -> forall log', print_complexity log' r = ret tt) /\
  ((1 < n_ratio r)%Q ->
   (0 < user_cycle_ratio r)%Q /\ (0 < total_cycle_ratio r)%Q /\ (0 < time_ratio r)%Q ->
   forall w, print_complexity log r w = (emit (complexity_lines log r) w, Ok tt)) /\
  ((1 < n_ratio r)%Q ->
   ~ ((0 < user_cycle_ratio r)%Q /\ (0 < total_cycle_ratio r)%Q /\ (0 < time_ratio r)%Q) ->
   forall w, print_complexity log r w = (w, Raise ValueError)) /\
  (printed (print_complexity log r) <> [] <->
   (1 < n_ratio r)%Q /\
   (0 < user_cycle_ratio r)%Q /\ (0 < total_cycle_ratio r)%Q /\ (0 < time_ratio r)%Q).
Proof.
  intros -> -> -> Hd Hlog.
  set (r := scaling_ratios _ _).
  assert (Hrun : (1 < n_ratio r)%Q ->
    (0 < user_cycle_ratio r)%Q /\ (0 < total_cycle_ratio r)%Q /\ (0 < time_ratio r)%Q ->
    forall w, print_complexity log r w = (emit (complexity_lines log r) w, Ok tt)).
  { intros Hn (Hu & Ht & Hm) w. apply print_complexity_run; auto. }
  assert (Herr : (1 < n_ratio r)%Q ->
    ~ ((0 < user_cycle_ratio r)%Q /\ (0 < total_cycle_ratio r)%Q /\ (0 < time_ratio r)%Q) ->
    forall w, print_complexity log r w = (w, Raise ValueError)).
  { intros Hn Hneg w. apply print_complexity_domain_error; auto. }
  split; [|split; [|split; [|split]]]; try assumption.
  - rewrite printed_print_statistics, (print_scaling_ok d0 rest Hd). fold r.
    eexists. reflexivity.
  - intros Hn log'. by apply print_complexity_skip.
  - split.
    + intros Hp. destruct (Qlt_le_dec 1 (n_ratio r)) as [Hn|Hn].
      * split; [done|].
        destruct (Qlt_le_dec 0 (user_cycle_ratio r)) as [Hu|Hu],
                 (Qlt_le_dec 0 (total_cycle_ratio r)) as [Ht|Ht],
                 (Qlt_le_dec 0 (time_ratio r)) as [Hm|Hm]; try done;
          exfalso; apply Hp; unfold printed;
          (rewrite Herr;
           [reflexivity | done
           | intros (Hu' & Ht' & Hm');
             first [exact (Qlt_not_le _ _ Hu' Hu) | exact (Qlt_not_le _ _ Ht' Ht)
                   | exact (Qlt_not_le _ _ Hm' Hm)]]).
      * exfalso. apply Hp. by rewrite print_complexity_skip.
    + intros [Hn Hpos]. unfold printed. by rewrite Hrun.
Qed.

(** An instance: in the scenario the ratio is 10 and the section is printed. *)
Lemma complexity_section_guard_witness :
  print_complexity log_sign (scaling_ratios scenario_n1 scenario_n10) blank =
  (emit (complexity_lines log_sign (scaling_ratios scenario_n1 scenario_n10)) blank, Ok tt).
Proof.
  destruct (complexity_section_guard log_sign scenario_n1 [scenario_n10]
              scenario_n1 scenario_n10 (scaling_ratios scenario_n1 scenario_n10))
    as (_ & _ & H & _).
  - reflexivity.
  - reflexivity.
  - reflexivity.
  - repeat constructor; discriminate.
  - exact log_sign_nonzero.
  - apply H; [reflexivity|]. repeat split; reflexivity.
Defined.

(** C6: the rows of the Reporter's table and the data rows of the CSV
    file follow [sorted(data, key=participant_count)]: a rearrangement of
    the input in non-decreasing participant count.  The table holds one
    row per record between its header block and the closing rule; the CSV
    file holds the rows of a prefix of that order (all of it when no
    participant count is zero), each with its count in column N. *)
Theorem rows_ascend_by_participants log d0 rest data path w :
  (StronglySorted (fun x y => participant_count x <= participant_count y)
     (sorted by_participants data) /\
   Permutation (sorted by_participants data) data) /\
  (exists post,
     stdout (fst (print_statistics log (d0 :: rest) w)) =
     stdout w ++ printed (print_overall d0 rest) ++
     map table_row (sorted by_participants (d0 :: rest)) ++ str_mul "-" 135 :: post) /\
  (exists emitted skipped,
     sorted by_participants data = emitted ++ skipped /\
     written (fst (generate_csv_report data path w)) !! path =
       Some (CsvFile (csv_header :: map csv_cells emitted)) /\
     (Forall (fun r => participant_count r <> 0) data -> skipped = [])) /\
  (forall item, csv_cells item !! 0%nat = Some (VInt (participant_count item))).
Proof.
  split; [|split; [|split]].
  - split; [apply sorted_by_participants|apply sorted_Permutation].
  - eexists. rewrite (writer_print_statistics log (d0 :: rest) w).
    cbn [fst]. rewrite stdout_emit, printed_print_statistics, printed_print_table.
    rewrite <- !app_assoc. reflexivity.
  - destruct (exported_prefix (sorted by_participants data)) as [skipped Hs].
    exists (exported (sorted by_participants data)), skipped.
    split; [exact Hs|]. split.
    + rewrite generate_csv_report_run. cbv zeta.
      destruct (decide _); cbn [fst emit store written]; apply lookup_insert_eq.
    + intros H. rewrite exported_all in Hs.
      * rewrite <- (app_nil_r (sorted _ _)) in Hs at 1. by apply app_inv_head in Hs.
      * by rewrite (sorted_Permutation by_participants data).
  - reflexivity.
Qed.

(** C7: on the summary file of the end-to-end scenario (N=1 and N=10) the
    run exits with status 0; the report shows the participant range
    "1 to 10", a participant ratio of 10.0x and a user-cycle ratio of
    9.50x; the CSV file holds the header and exactly two data rows, whose
    overhead cells are 2.4 (N=1) and 72.4631..., displayed as 72.46
    (N=10).  The logarithm is only assumed to be non-zero above one. *)
Theorem scenario_end_to_end log mpl :
  (forall x, (1 < x)%Q -> ~ (log x == 0)%Q) ->
  let run := run_script log ["analyze_benchmarks.py"; "res"]
               (world_with "res" scenario_dir mpl) in
  snd run = 0 /\
  In "Participant range: 1 to 10" (stdout (fst run)) /\
  In "Participants increased by: 10.0x (1 → 10)" (stdout (fst run)) /\
  In "User cycles increased by:  9.50x (1,000 → 9,500)" (stdout (fst run)) /\
  exists o1 o10,
    written (fst run) !! "res/detailed_analysis.csv" =
      Some (CsvFile [csv_header; csv_cells scenario_n1; csv_cells scenario_n10]) /\
    csv_cells scenario_n1 !! 10%nat = Some (VFloat o1) /\
    csv_cells scenario_n10 !! 10%nat = Some (VFloat o10) /\
    (o1 == 24 # 10)%Q /\ fmt_fixed false 1 o1 = "2.4" /\
    (7246 # 100 <= o10)%Q /\ (o10 < 7247 # 100)%Q /\ fmt_fixed false 2 o10 = "72.46".
Proof.
  intros Hlog run.
  destruct (scenario_report log Hlog) as [Hp Ho].
  set (w0 := world_with "res" scenario_dir mpl) in *.
  pose (w3 := emit ["✓ Detailed CSV report saved to: res/detailed_analysis.csv"]
                (store "res/detailed_analysis.csv"
                   (CsvFile [csv_header; csv_cells scenario_n1; csv_cells scenario_n10])
                   (emit ("Loading benchmark data from: res"
                          :: "Loaded 2 benchmark results"
                          :: printed (print_statistics log [scenario_n1; scenario_n10])) w0))).
  assert (Hrun : run = (emit completion_banner (fst (generate_plot [scenario_n1; scenario_n10] "res" w3)), 0)).
  { unfold run, run_script. rewrite main_run. cbv zeta.
    change (disk w0 !! argv_results_dir ["analyze_benchmarks.py"; "res"])
      with (Some scenario_dir).
    cbv iota beta.
    change (load_result (Some scenario_dir)) with (Ok [scenario_n1; scenario_n10]).
    cbv iota beta. rewrite Ho.
    rewrite generate_csv_report_run. cbv zeta.
    rewrite decide_True by (repeat constructor; discriminate).
    reflexivity. }
  rewrite Hrun. cbn [fst snd].
  destruct (generate_plot_effect [scenario_n1; scenario_n10] "res" w3) as [[lines Hout] Hfiles].
  assert (Hin : forall s, In s (printed (print_statistics log [scenario_n1; scenario_n10])) ->
                          In s (stdout (emit completion_banner (fst (generate_plot [scenario_n1; scenario_n10] "res" w3))))).
  { intros s Hs. rewrite stdout_emit, Hout. apply in_or_app. left. apply in_or_app. left.
    unfold w3. cbn [stdout emit store]. apply in_or_app. left.
    right. right. exact Hs. }
  split; [reflexivity|].
  split; [apply Hin; rewrite Hp; apply in_or_app; left; pick_line|].
  split; [apply Hin; rewrite Hp; do 2 (apply in_or_app; right); apply in_or_app; left;
          pick_line|].
  split; [apply Hin; rewrite Hp; do 2 (apply in_or_app; right); apply in_or_app; left;
          pick_line|].
  eexists _, _. split; [|split; [reflexivity|split; [reflexivity|]]].
  - cbn [written emit]. rewrite Hfiles by discriminate. reflexivity.
  - repeat split; vm_compute; congruence.
Qed.

(** An instance: the run with [log_sign] for the logarithm and matplotlib
    available. *)
Lemma scenario_end_to_end_witness :
  snd (run_script log_sign ["analyze_benchmarks.py"; "res"]
         (world_with "res" scenario_dir true)) = 0 /\
  In "Participant range: 1 to 10"
     (stdout (fst (run_script log_sign ["analyze_benchmarks.py"; "res"]
                     (world_with "res" scenario_dir true)))).
Proof.
  destruct (scenario_end_to_end log_sign true log_sign_nonzero) as (H1 & H2 & _).
  split; [exact H1|exact H2].
Defined.

(** C8: when matplotlib cannot be imported, the Chart Renderer prints a
    note that names how to install it and returns without writing a file;
    the run goes on to the final banner and exits with status 0, the CSV
    report being the only file written.  The exit status never depends on
    whether matplotlib is available. *)
Theorem missing_matplotlib_not_fatal log argv w data :
  matplotlib w = false ->
  (forall dir, generate_plot data dir w = (emit matplotlib_note w, Ok tt)) /\
  (forall w', disk w' = disk w ->
              snd (run_script log argv w') = snd (run_script log argv w)) /\
  (is_Some (disk w !! argv_results_dir argv) ->
   snd (load_benchmark_data (argv_results_dir argv) w) = Ok data -> data <> [] ->
   outcome (print_statistics log data) = Ok tt ->
   snd (run_script log argv w) = 0 /\
   (exists before,
      stdout (fst (run_script log argv w)) =
      stdout w ++ before ++ matplotlib_note ++ completion_banner) /\
   written (fst (run_script log argv w)) =
   <[os_path_join (argv_results_dir argv) "detailed_analysis.csv" :=
       CsvFile (csv_header :: map csv_cells (sorted by_participants data))]> (written w)).
Proof.
  intros Hm. split; [|split].
  - intros dir. by apply generate_plot_unavailable.
  - intros w' Hd. by rewrite !run_script_status, Hd.
  - intros [d Hd] Hl Hne Hok.
    rewrite load_benchmark_data_run in Hl. cbn [snd] in Hl. rewrite Hd in Hl.
    apply print_statistics_ok in Hok as Hp; [|done]. destruct Hp as [Hp _].
    assert (Hs : Forall (fun r => participant_count r <> 0) (sorted by_participants data))
      by (by rewrite (sorted_Permutation by_participants data)).
    unfold run_script. rewrite main_run. cbv zeta. rewrite Hd, Hl.
    destruct data as [|d0 rest]; [done|]. rewrite Hok.
    rewrite generate_csv_report_run. cbv zeta.
    rewrite decide_True by done. rewrite exported_all by done.
    rewrite generate_plot_unavailable by done.
    cbn [fst snd exit_status]. split; [done|]. split; [|done].
    exists (("Loading benchmark data from: " +:+ argv_results_dir argv)
            :: ("Loaded " +:+ str (len (d0 :: rest)) +:+ " benchmark results")
            :: printed (print_statistics log (d0 :: rest)) ++
            ["✓ Detailed CSV report saved to: " +:+
             os_path_join (argv_results_dir argv) "detailed_analysis.csv"]).
    cbn [stdout emit store].
    generalize (printed (print_statistics log (d0 :: rest))) as report.
    unfold matplotlib_note. generalize completion_banner as banner.
    intros banner report. cbn [app]. rewrite <- ?app_assoc. cbn [app].
    by rewrite <- ?app_assoc.
Qed.

(** An instance: the scenario without matplotlib; only the CSV report is
    written. *)
Lemma missing_matplotlib_not_fatal_witness :
  snd (run_script log_sign ["analyze_benchmarks.py"; "res"]
         (world_with "res" scenario_dir false)) = 0 /\
  written (fst (run_script log_sign ["analyze_benchmarks.py"; "res"]
                  (world_with "res" scenario_dir false))) =
  <[ "res/detailed_analysis.csv" :=
       CsvFile (csv_header :: map csv_cells [scenario_n1; scenario_n10]) ]> ∅.
Proof.
  destruct (missing_matplotlib_not_fatal log_sign ["analyze_benchmarks.py"; "res"]
              (world_with "res" scenario_dir false) [scenario_n1; scenario_n10])
    as (_ & _ & H).
  - reflexivity.
  - destruct H as (H0 & _ & Hw).
    + by eexists.
    + reflexivity.
    + discriminate.
    + apply (scenario_report log_sign), log_sign_nonzero.
    + split; [exact H0|exact Hw].
Defined.

(** C9: for a non-empty record list, the scaling comparison divides by the
    user cycles, total cycles, segments and total time of [first], the
    record of the list with the minimum participant count, without a
    guard: when one of them is zero the Reporter raises
    [ZeroDivisionError] right after the heading of the scaling section,
    before any ratio is printed. *)
Theorem scaling_division_unguarded log d0 rest first :
  first = min_by participant_count d0 rest ->
  user_cycles first = 0 \/ total_cycles first = 0 \/
  session_segments first = 0 \/ total_time_ms first = 0 ->
  (In first (d0 :: rest) /\
   forall x, In x (d0 :: rest) -> participant_count first <= participant_count x) /\
  forall w,
    print_statistics log (d0 :: rest) w =
    (emit (printed (print_overall d0 rest) ++
           map table_row (sorted by_participants (d0 :: rest)) ++
           [str_mul "-" 135; ""; "Scaling Analysis:"; str_mul "-" 80]) w,
     Raise ZeroDivisionError).
Proof.
  intros -> Hz.
  split; [split; [apply min_by_In|apply min_by_le]|]. intros w.
  assert (Hex : Exists (fun z => z = 0)
                  (scaling_divisors (min_by participant_count d0 rest))).
  { unfold scaling_divisors. rewrite !Exists_cons. tauto. }
  pose proof (print_scaling_raise d0 rest Hex) as Hs.
  destruct (writer_of _ _ _ Hs) as (_ & Hp & Ho).
  rewrite (writer_print_statistics log (d0 :: rest) w).
  rewrite printed_print_statistics, outcome_print_statistics, Ho, Hp.
  rewrite printed_print_table, app_nil_r, <- (app_assoc (map _ _)).
  reflexivity.
Qed.

(** An instance: the record with the minimum participant count has no
    user cycles. *)
Lemma scaling_division_unguarded_witness :
  print_statistics log_sign [scenario_n10; idle_n1] blank =
  (emit (printed (print_overall scenario_n10 [idle_n1]) ++
         map table_row [idle_n1; scenario_n10] ++
         [str_mul "-" 135; ""; "Scaling Analysis:"; str_mul "-" 80]) blank,
   Raise ZeroDivisionError).
Proof.
  apply (scaling_division_unguarded log_sign scenario_n10 [idle_n1] idle_n1).
  - reflexivity.
  - left. reflexivity.
Defined.

(** C10: whenever [benchmark_summary.json] exists, the loader returns
    exactly what that file parses to, whatever the other entries of the
    directory are: no [benchmark_N*.json] file is read.  In particular a
    summary holding the empty array makes the program print
    "Error: No benchmark data found" and exit with status 1, also when
    matching per-run files are present. *)
Theorem summary_shadows_run_files log argv w d f :
  disk w !! argv_results_dir argv = Some d ->
  summary_file d = Some f ->
  load_benchmark_data (argv_results_dir argv) w = json_load f w /\
  json_load f w = (w, match f with Document rs => Ok rs | Malformed => Raise JSONDecodeError end) /\
  (forall w' dir' d',
     disk w' !! dir' = Some d' -> summary_file d' = Some f ->
     snd (load_benchmark_data dir' w') = snd (load_benchmark_data (argv_results_dir argv) w)) /\
  (f = Document [] ->
   run_script log argv w =
   (emit ["Loading benchmark data from: " +:+ argv_results_dir argv;
          "Error: No benchmark data found"] w, 1)).
Proof.
  intros Hd Hf. split; [|split; [|split]].
  - rewrite load_benchmark_data_run, Hd. unfold load_result. rewrite Hf. by destruct f.
  - by destruct f.
  - intros w' dir' d' Hd' Hf'. rewrite !load_benchmark_data_run, Hd, Hd'.
    unfold load_result. by rewrite Hf, Hf'.
  - intros ->. unfold run_script. rewrite main_run. cbv zeta.
    rewrite Hd. unfold load_result. rewrite Hf. by rewrite emit_emit.
Qed.

(** An instance: an empty summary next to a per-run file that parses. *)
Lemma summary_shadows_run_files_witness :
  entries both_sources_dir !! "benchmark_N1.json" = Some (Document scenario_n1) /\
  run_script log_sign ["analyze_benchmarks.py"; "res"] (world_with "res" both_sources_dir true) =
  (emit ["Loading benchmark data from: res"; "Error: No benchmark data found"]
     (world_with "res" both_sources_dir true), 1).
Proof.
  split; [reflexivity|].
  destruct (summary_shadows_run_files log_sign ["analyze_benchmarks.py"; "res"]
              (world_with "res" both_sources_dir true) both_sources_dir (Document []))
    as (_ & _ & _ & H).
  - reflexivity.
  - reflexivity.
  - apply H. reflexivity.
Defined.

(** * Further properties of the script *)

(** ** The Reporter *)

(** X1: the Reporter only prints.  In every world it leaves the
    directories, the written files and the matplotlib flag as they were
    and appends lines to the output; the lines and the way it ends are the
    same in every world. *)
Theorem reporter_only_prints log data w :
  disk (fst (print_statistics log data w)) = disk w /\
  written (fst (print_statistics log data w)) = written w /\
  matplotlib (fst (print_statistics log data w)) = matplotlib w /\
  exists lines,
    stdout (fst (print_statistics log data w)) = stdout w ++ lines /\
    forall w', stdout (fst (print_statistics log data w')) = stdout w' ++ lines /\
               snd (print_statistics log data w') = snd (print_statistics log data w).
Proof.
  rewrite (writer_print_statistics log data w). cbn [fst snd emit disk written matplotlib stdout].
  repeat split. exists (printed (print_statistics log data)). split; [done|].
  intros w'. by rewrite (writer_print_statistics log data w').
Qed.


Lemma float_div_gt_1 a b : 0 < b -> (1 < float a / float b)%Q <-> b < a.
Proof.
  intros Hb. destruct b as [|p|p]; try lia.
  unfold float, Qlt, Qdiv, Qmult, Qinv, inject_Z; simpl. lia.
Qed.

(** X4: the power-law section needs two different participant counts.
    With positive counts, a participant ratio above one means that two
    records of the list differ in participant count; when all counts
    coincide the ratio is exactly one and the section is skipped,
    whatever [math.log] is. *)
Theorem complexity_needs_two_counts d0 rest first last :
  Forall (fun r => 0 < participant_count r) (d0 :: rest) ->
  first = min_by participant_count d0 rest ->
  last = max_by participant_count d0 rest ->
  ((1 < n_ratio (scaling_ratios first last))%Q ->
   exists x y, In x (d0 :: rest) /\ In y (d0 :: rest) /\
               participant_count x <> participant_count y) /\
  ((forall x y, In x (d0 :: rest) -> In y (d0 :: rest) ->
                participant_count x = participant_count y) ->
   (n_ratio (scaling_ratios first last) == 1)%Q /\
   forall log, print_complexity log (scaling_ratios first last) = ret tt).
Proof.
  intros Hpos -> ->.
  pose proof (min_by_In participant_count d0 rest) as Hfirst.
  pose proof (max_by_In participant_count d0 rest) as Hlast.
  assert (Hb : 0 < participant_count (min_by participant_count d0 rest)).
  { rewrite Forall_forall in Hpos. apply Hpos. by apply list_elem_of_In. }
  cbn [n_ratio scaling_ratios]. split.
  - rewrite float_div_gt_1 by done.
    intros Hlt. eexists _, _. split; [exact Hfirst|]. split; [exact Hlast|]. lia.
  - intros Hsame. rewrite (Hsame _ _ Hlast Hfirst). split.
    + unfold float. apply Qmult_inv_r.
      unfold Qeq, inject_Z; simpl. lia.
    + intros log. apply print_complexity_skip. cbn [n_ratio scaling_ratios].
      apply Qnot_lt_le. rewrite float_div_gt_1 by done.
      rewrite (Hsame _ _ Hlast Hfirst). lia.
Qed.

(** An instance: two records with one participant each. *)
Lemma complexity_needs_two_counts_witness :
  (n_ratio (scaling_ratios scenario_n1 scenario_n1) == 1)%Q /\
  forall log, print_complexity log (scaling_ratios scenario_n1 scenario_n1) = ret tt.
Proof.
  apply (complexity_needs_two_counts scenario_n1 [idle_n1] scenario_n1 scenario_n1).
  - repeat constructor.
  - reflexivity.
  - reflexivity.
  - intros x y [<-|[<-|[]]] [<-|[<-|[]]]; reflexivity.
Defined.

(** ** The CSV Exporter *)

Lemma sorted_head_least data x l :
  sorted by_participants data = x :: l ->
  forall y, In y data -> participant_count x <= participant_count y.
Proof.
  intros E y Hy.
  pose proof (sorted_by_participants data) as Hs. rewrite E in Hs.
  apply list_elem_of_In in Hy.
  rewrite <- (sorted_Permutation by_participants data), E in Hy.
  apply StronglySorted_inv in Hs as [_ Hall].
  apply elem_of_cons in Hy as [->|Hy]; [lia|].
  rewrite Forall_forall in Hall. by apply Hall.
Qed.

(** X6: when no participant count is negative and some record has the
    count zero, the export stops at the first data row: it raises
    [ZeroDivisionError], prints no confirmation, and leaves a file that
    holds the header row only. *)
Theorem csv_zero_count_leaves_header data path w :
  Forall (fun r => 0 <= participant_count r) data ->
  Exists (fun r => participant_count r = 0) data ->
  generate_csv_report data path w =
  (store path (CsvFile [csv_header]) w, Raise ZeroDivisionError).
Proof.
  intros Hnn Hz. rewrite generate_csv_report_run. cbv zeta.
  rewrite decide_False.
  2:{ intros Hall. apply Exists_exists in Hz as (r & Hr & Hr0).
      rewrite Forall_forall in Hall. by apply (Hall r). }
  f_equal. f_equal. f_equal. f_equal.
  destruct (sorted by_participants data) as [|x l] eqn:E; [done|].
  cbn [exported].
  apply Exists_exists in Hz as (r & Hr & Hr0). apply list_elem_of_In in Hr.
  pose proof (sorted_head_least data x l E r Hr) as Hle.
  assert (Hx : In x data).
  { apply list_elem_of_In. rewrite <- (sorted_Permutation by_participants data), E. by left. }
  rewrite Forall_forall in Hnn. apply list_elem_of_In in Hx. specialize (Hnn x Hx).
  rewrite decide_True by lia. done.
Qed.

(** A record at zero participants. *)
Lemma csv_zero_count_leaves_header_witness :
  generate_csv_report
    [scenario_n10;
     {| participant_count := 0; user_cycles := 5; total_cycles := 8; session_segments := 1;
        proving_time_ms := 1; total_time_ms := 2; receipt_size_bytes := 0;
        journal_size_bytes := 0; timestamp := "t" |}] "out.csv" blank =
  (store "out.csv" (CsvFile [csv_header]) blank, Raise ZeroDivisionError).
Proof.
  apply csv_zero_count_leaves_header.
  - repeat constructor; simpl; lia.
  - right. left. reflexivity.
Defined.

(** X7: the export replaces the file.  Nothing of what the file held
    before is kept, every other file is left alone, and exporting to a path
    twice leaves what the second export alone would leave. *)
Theorem csv_export_overwrites data data' path a w :
  written (fst (generate_csv_report data path (store path a w))) =
    written (fst (generate_csv_report data path w)) /\
  written (fst (generate_csv_report data path (fst (generate_csv_report data' path w)))) =
    written (fst (generate_csv_report data path w)) /\
  forall path', path' <> path ->
    written (fst (generate_csv_report data path w)) !! path' = written w !! path'.
Proof.
  rewrite !generate_csv_report_run. cbv zeta.
  destruct (decide (Forall _ data)), (decide (Forall _ data'));
    cbn [fst written store emit]; rewrite ?insert_insert_eq;
    (split; [done|]; split; [done|]); intros path' Hp; by rewrite lookup_insert_ne.
Qed.

(** X8: the file the export leaves starts with the header row, and every
    row of it, header or data, has thirteen cells. *)
Theorem csv_rows_have_thirteen_cells data path w :
  exists rows,
    written (fst (generate_csv_report data path w)) !! path =
      Some (CsvFile (csv_header :: rows)) /\
    Forall (fun row => length row = 13%nat) (csv_header :: rows).
Proof.
  exists (map csv_cells (exported (sorted by_participants data))). split.
  - rewrite generate_csv_report_run. cbv zeta.
    destruct (decide _); cbn [fst written store emit]; apply lookup_insert_eq.
  - constructor; [done|]. apply Forall_forall. intros row Hrow.
    apply list_elem_of_fmap in Hrow as (item & -> & _). reflexivity.
Qed.

(** X10: rows and table lines of records that share a participant count
    keep the order of the input: the order both loops follow is a
    rearrangement of the input in which, for every count, the records
    with that count appear as they did in the input. *)
Theorem equal_counts_keep_input_order log d0 rest path w :
  Forall (fun r => participant_count r <> 0) (d0 :: rest) ->
  exists items post,
    (forall k, filter (fun r => participant_count r = k) items =
               filter (fun r => participant_count r = k) (d0 :: rest)) /\
    written (fst (generate_csv_report (d0 :: rest) path w)) !! path =
      Some (CsvFile (csv_header :: map csv_cells items)) /\
    printed (print_statistics log (d0 :: rest)) =
      printed (print_overall d0 rest) ++ map table_row items ++ post.
Proof.
  intros Hnz. exists (sorted by_participants (d0 :: rest)). eexists.
  split; [intros k; apply sorted_stable|]. split.
  - rewrite generate_csv_report_run. cbv zeta. rewrite decide_True by done.
    rewrite exported_all by (by rewrite (sorted_Permutation by_participants (d0 :: rest))).
    cbn [fst written store emit]. apply lookup_insert_eq.
  - rewrite printed_print_statistics, printed_print_table, <- !app_assoc. reflexivity.
Qed.

(** An instance: two runs at one participant, given after a run at ten. *)
Lemma equal_counts_keep_input_order_witness :
  exists items post,
    filter (fun r => participant_count r = 1) items = [scenario_n1; idle_n1] /\
    printed (print_statistics log_sign [scenario_n10; scenario_n1; idle_n1]) =
      printed (print_overall scenario_n10 [scenario_n1; idle_n1]) ++
      map table_row items ++ post.
Proof.
  destruct (equal_counts_keep_input_order log_sign scenario_n10 [scenario_n1; idle_n1]
              "out.csv" blank) as (items & post & Hk & _ & Hp).
  - repeat constructor; discriminate.
  - exists items, post. split; [exact (Hk 1)|exact Hp].
Defined.

Lemma distinct_counts_inj (data : list BenchmarkRecord) x y :
  NoDup (map participant_count data) -> x ∈ data -> y ∈ data ->
  participant_count x = participant_count y -> x = y.
Proof.
  intros Hnd Hx Hy E. induction data as [|d data IH]; [by apply elem_of_nil in Hx|].
  cbn [map] in Hnd. apply NoDup_cons in Hnd as [Hd Hnd].
  apply elem_of_cons in Hx as [->|Hx], Hy as [->|Hy]; [done| | |by apply IH].
  - exfalso. apply Hd. rewrite E. by apply list_elem_of_fmap_2.
  - exfalso. apply Hd. rewrite <- E. by apply list_elem_of_fmap_2.
Qed.

(** Two rearrangements in ascending order of pairwise distinct counts agree. *)
Lemma sorted_by_participants_unique data data' :
  Permutation data data' ->
  NoDup (map participant_count data) ->
  sorted by_participants data = sorted by_participants data'.
Proof.
  intros Hperm Hnd.
  apply (StronglySorted_unique_strong
           (fun x y => participant_count x <= participant_count y)).
  - intros x y Hx Hy Hxy Hyx.
    rewrite (sorted_Permutation by_participants data) in Hx.
    rewrite (sorted_Permutation by_participants data'), <- Hperm in Hy.
    apply (distinct_counts_inj data); [done..|lia].
  - apply sorted_by_participants.
  - apply sorted_by_participants.
  - by rewrite !(sorted_Permutation by_participants).
Qed.

(** X11: when the participant counts are pairwise distinct, the order in
    which the records were loaded does not matter to the exports: two
    lists with the same records give the same CSV file, the same table
    rows and the same chart. *)
Theorem exports_ignore_input_order data data' path dir w :
  Permutation data data' ->
  NoDup (map participant_count data) ->
  generate_csv_report data path w = generate_csv_report data' path w /\
  generate_plot data dir w = generate_plot data' dir w /\
  printed (print_table data) = printed (print_table data').
Proof.
  intros Hperm Hnd.
  pose proof (sorted_by_participants_unique data data' Hperm Hnd) as E.
  split; [|split].
  - unfold generate_csv_report. by rewrite E.
  - unfold generate_plot. by rewrite E.
  - by rewrite !printed_print_table, E.
Qed.

(** An instance: the scenario's records in either order. *)
Lemma exports_ignore_input_order_witness :
  generate_csv_report [scenario_n1; scenario_n10] "out.csv" blank =
  generate_csv_report [scenario_n10; scenario_n1] "out.csv" blank.
Proof.
  apply (exports_ignore_input_order [scenario_n1; scenario_n10] [scenario_n10; scenario_n1]
           "out.csv" "res" blank).
  - apply perm_swap.
  - cbn [map]. apply NoDup_cons. split; [|apply NoDup_singleton].
    intros H. apply list_elem_of_In in H. destruct H as [H|[]]. discriminate H.
Defined.

(** ** The Chart Renderer *)




(** ** The Loader *)


(** X15: in the fallback, when every matching file parses, the Loader
    returns exactly one record per matching file. *)
Theorem loader_fallback_counts_files dir w d :
  disk w !! dir = Some d -> summary_file d = None ->
  (forall n f, entries d !! n = Some f -> glob_match "benchmark_N*.json" n = true ->
               f <> Malformed) ->
  exists data,
    load_benchmark_data dir w = (w, Ok data) /\
    length data =
    size (filter (fun nf => glob_match "benchmark_N*.json" (fst nf) = true) (entries d)).
Proof.
  intros Hd Hs Hok. rewrite load_benchmark_data_run, Hd. unfold load_result. rewrite Hs.
  destruct (run_files_spec d) as (_ & _ & Hin).
  assert (Hall : Forall (fun nf => snd nf <> Malformed) (run_files d)).
  { apply Forall_forall. intros [n f] Hnf. apply list_elem_of_In, Hin in Hnf as [Hf Hm].
    by apply (Hok n f). }
  assert (Hlen : length (run_files d) =
                 size (filter (fun nf => glob_match "benchmark_N*.json" (fst nf) = true)
                         (entries d))).
  { unfold run_files. rewrite sorted_length, <- length_map_to_list, map_filter_alt.
    rewrite map_to_list_to_map; [done|].
    eapply sublist_NoDup; [apply (NoDup_fst_map_to_list (entries d))|].
    apply fmap_sublist, sublist_filter. }
  rewrite <- Hlen. clear Hlen Hin.
  induction (run_files d) as [|[n [|r]] files IH]; cbn [parse_all].
  - by exists [].
  - by apply Forall_cons in Hall as [? _].
  - apply Forall_cons in Hall as [_ Hall]. destruct (IH Hall) as (data & E & Hl).
    injection E as E. rewrite E. exists (r :: data). split; [done|]. simpl. by rewrite Hl.
Qed.

(** An instance: two of the four entries of the per-run directory match. *)
Lemma loader_fallback_counts_files_witness :
  exists data,
    load_benchmark_data "res" (world_with "res" per_run_dir true) =
      (world_with "res" per_run_dir true, Ok data) /\
    length data = 2%nat.
Proof.
  destruct (loader_fallback_counts_files "res" (world_with "res" per_run_dir true) per_run_dir)
    as (data & H1 & H2).
  - reflexivity.
  - reflexivity.
  - intros n f Hf Hm ->. unfold per_run_dir in Hf. cbn [entries] in Hf.
    repeat (rewrite lookup_insert in Hf; case_decide;
            [subst n; first [discriminate Hf | vm_compute in Hm; discriminate Hm]|]).
    rewrite lookup_singleton in Hf.
    case_decide; [subst n; vm_compute in Hm; discriminate Hm|discriminate Hf].
  - exists data. split; [exact H1|]. rewrite H2. vm_compute. reflexivity.
Defined.

(** ** The Driver *)






Lemma argv_results_dir_given prog dir extra : argv_results_dir (prog :: dir :: extra) = dir.
Proof.
  unfold argv_results_dir, len. cbn [length nth].
  destruct (Z.ltb_spec 1 (Z.of_nat (S (S (length extra))))); [done|lia].
Qed.

(** X18: the script reads its command line only for the program name and
    the first argument: further arguments are ignored, and without an
    argument it works on [benchmark_results/latest]. *)
Theorem driver_reads_one_argument log prog dir extra w :
  run_script log (prog :: dir :: extra) w = run_script log [prog; dir] w /\
  run_script log [prog] w = run_script log [prog; "benchmark_results/latest"] w.
Proof.
  unfold run_script. rewrite !main_run. cbv zeta.
  rewrite (argv_results_dir_given prog dir extra), (argv_results_dir_given prog dir []).
  split; reflexivity.
Qed.
